(** * express-jobly: the SQL builders

    A shallow embedding of the three query builders of the repository and
    the properties their specification states about them:

    - [Sql.sqlForPartialUpdate]   (helpers/sql.js)
    - [Company.getByFilter]       (models/company.js)
    - [Job.getByFilter]           (models/job.js)

    The builders are JavaScript, so the first module fixes the fragment of
    the language they use: primitive values, the conversions behind
    [if (x)], [x || y], [x < y], [x >= y], [x === y] and template literals,
    and plain objects with their property order. *)

From Stdlib Require Import ZArith String Ascii Decimal DecimalString DecimalNat SpecFloat.
From stdpp Require Import base list strings.

Open Scope string_scope.
Open Scope list_scope.

(** ** JavaScript values and operators *)

Module JS.

(** Numbers are IEEE 754 binary64 values.  Objects other than the plain
    records below (arrays, functions, the prototype object) only ever meet
    the conversions of this file, so they are kept as the string their
    default conversion produces. *)
Inductive value : Type :=
| VUndefined
| VNull
| VBool (b : bool)
| VNumber (x : spec_float)
| VString (s : string)
| VObject (str : string).

(** A plain object: its own enumerable string-keyed properties, in the
    order [Object.keys] and [for ... in] enumerate them (which is insertion
    order for every key that is not an array index). *)
Definition object : Type := list (string * value).

(** The exceptions that reach a caller of the builders.  [BadRequestError]
    is the class of expressError.js; a failure of the database client is
    a [DatabaseError]. *)
Inductive exn : Type :=
| BadRequestError (message : string)
| DatabaseError (message : string).

(** What the builders take from their environment: the number/string
    conversions of the JavaScript engine and the database client. *)
Class Runtime : Type := {
  Number_toString : spec_float -> string;
  StringToNumber : string -> spec_float;
  db_query : string -> list value -> string + list object
}.

(** The double quote character and the one-character string holding it. *)
Definition dquote_char : ascii := "034"%char.
Definition dquote : string := String dquote_char EmptyString.

(** Number literals of the sources. *)
Definition Number_of_Z (z : Z) : spec_float := binary_normalize 53 1024 z 0 false.

(** The literal [0.1]: the binary64 value nearest to 1/10, 0x3FB999999999999A. *)
Definition Number_0_1 : spec_float := S754_finite false 7205759403792794 (-56).

(** [ToBoolean]: the test of [if (x)] and [x || y]. *)
Definition ToBoolean (v : value) : bool :=
  match v with
  | VUndefined | VNull => false
  | VBool b => b
  | VNumber (S754_zero _) | VNumber S754_nan => false
  | VNumber _ => true
  | VString s => negb (String.eqb s "")
  | VObject _ => true
  end.

(** [ToBoolean] of the int32 result of a bitwise operator. *)
Definition ToBoolean_int32 (z : Z) : bool := negb (z =? 0)%Z.

(** Strings.  A Rocq string holds the UTF-8 encoding of a JavaScript
    string, and JavaScript orders strings by their UTF-16 code units:
    a character above U+FFFF is two units, the first in D800..DBFF, so it
    sorts before the characters U+E000..U+FFFF.  [code_units] reads the
    units off the bytes (a byte that starts no well-formed sequence
    stands for U+FFFD), and [code_units_ltb] is the order: the first
    differing unit decides, and a proper prefix comes first. *)
Definition continuation_byte (b : N) : bool := ((128 <=? b) && (b <? 192))%N.

Definition units_of_code_point (cp : N) : list N :=
  if (cp <? 65536)%N then [cp]
  else [(55296 + (cp - 65536) / 1024)%N; (56320 + (cp - 65536) mod 1024)%N].

Fixpoint code_units (s : string) : list N :=
  match s with
  | EmptyString => []
  | String c1 s1 =>
    let b1 := N_of_ascii c1 in
    if (b1 <? 128)%N then b1 :: code_units s1
    else
      match s1 with
      | String c2 s2 =>
        let b2 := N_of_ascii c2 in
        if ((192 <=? b1) && (b1 <? 224))%N && continuation_byte b2
        then ((b1 - 192) * 64 + (b2 - 128))%N :: code_units s2
        else
          match s2 with
          | String c3 s3 =>
            let b3 := N_of_ascii c3 in
            if ((224 <=? b1) && (b1 <? 240))%N && continuation_byte b2
               && continuation_byte b3
            then ((b1 - 224) * 4096 + (b2 - 128) * 64 + (b3 - 128))%N :: code_units s3
            else
              match s3 with
              | String c4 s4 =>
                let b4 := N_of_ascii c4 in
                if ((240 <=? b1) && (b1 <? 248))%N && continuation_byte b2
                   && continuation_byte b3 && continuation_byte b4
                then units_of_code_point
                       ((b1 - 240) * 262144 + (b2 - 128) * 4096
                        + (b3 - 128) * 64 + (b4 - 128))%N
                     ++ code_units s4
                else 65533%N :: code_units s1
              | EmptyString => 65533%N :: code_units s1
              end
          | EmptyString => 65533%N :: code_units s1
          end
      | EmptyString => [65533%N]
      end
  end.

Fixpoint code_units_ltb (u v : list N) : bool :=
  match u, v with
  | _, [] => false
  | [], _ :: _ => true
  | x :: u', y :: v' =>
    if (x <? y)%N then true
    else if (x =? y)%N then code_units_ltb u' v'
    else false
  end.

(** [a < b] on two strings. *)
Definition string_LessThan (a b : string) : bool :=
  code_units_ltb (code_units a) (code_units b).

(** [x || y]. *)
Definition LogicalOr (x y : value) : value := if ToBoolean x then x else y.

(** [x === y].  Two objects are equal when they are the same object; no
    operand of [===] in the sources is one. *)
Definition StrictEquals (x y : value) : bool :=
  match x, y with
  | VUndefined, VUndefined | VNull, VNull => true
  | VBool a, VBool b => Bool.eqb a b
  | VNumber a, VNumber b => SFeqb a b
  | VString a, VString b => String.eqb a b
  | _, _ => false
  end.

(** [a !== b] on two strings. *)
Definition string_StrictNotEquals (a b : string) : bool := negb (String.eqb a b).

(** Decimal rendering of an array index or length. *)
Definition nat_toString (n : nat) : string := NilEmpty.string_of_uint (Nat.to_uint n).

(** [Array.prototype.join] on an array of strings. *)
Fixpoint join (sep : string) (l : list string) : string :=
  match l with
  | [] => ""
  | [x] => x
  | x :: (_ :: _) as tl => x +:+ sep +:+ join sep tl
  end.

(** Own-property lookup, and the properties every plain object inherits
    from [Object.prototype] (as Node prints them). *)
Fixpoint GetOwnProperty (o : object) (k : string) : option value :=
  match o with
  | [] => None
  | (k', v) :: o' => if String.eqb k' k then Some v else GetOwnProperty o' k
  end.

Definition native (name : string) : value :=
  VObject ("function " +:+ name +:+ "() { [native code] }").

Definition Object_prototype : object :=
  [ ("constructor", native "Object");
    ("__defineGetter__", native "__defineGetter__");
    ("__defineSetter__", native "__defineSetter__");
    ("hasOwnProperty", native "hasOwnProperty");
    ("__lookupGetter__", native "__lookupGetter__");
    ("__lookupSetter__", native "__lookupSetter__");
    ("isPrototypeOf", native "isPrototypeOf");
    ("propertyIsEnumerable", native "propertyIsEnumerable");
    ("toString", native "toString");
    ("valueOf", native "valueOf");
    ("__proto__", VObject "[object Object]");
    ("toLocaleString", native "toLocaleString") ].

(** [o[k]] and [o.k]: the own property, else the inherited one, else
    [undefined]. *)
Definition Get (o : object) (k : string) : value :=
  match GetOwnProperty o k with
  | Some v => v
  | None =>
    match GetOwnProperty Object_prototype k with
    | Some v => v
    | None => VUndefined
    end
  end.

(** [Object.keys(o)] and [Object.values(o)]. *)
Definition Object_keys (o : object) : list string := map fst o.
Definition Object_values (o : object) : list value := map (Get o) (Object_keys o).

Section WithRuntime.
Context {RT : Runtime}.

(** [ToString], as a template literal applies it to an interpolated value. *)
Definition ToString (v : value) : string :=
  match v with
  | VUndefined => "undefined"
  | VNull => "null"
  | VBool true => "true"
  | VBool false => "false"
  | VNumber x => Number_toString x
  | VString s => s
  | VObject str => str
  end.

(** [ToPrimitive] and [ToNumber], as the relational operators apply them. *)
Definition ToPrimitive (v : value) : value :=
  match v with
  | VObject str => VString str
  | _ => v
  end.

Definition ToNumber (v : value) : spec_float :=
  match v with
  | VUndefined => S754_nan
  | VNull => S754_zero false
  | VBool true => Number_of_Z 1
  | VBool false => S754_zero false
  | VNumber x => x
  | VString s | VObject s => StringToNumber s
  end.

(** The abstract relational comparison [x < y]: [None] is its
    [undefined] result (an operand is [NaN]). *)
Definition IsLessThan (x y : value) : option bool :=
  match ToPrimitive x, ToPrimitive y with
  | VString a, VString b => Some (string_LessThan a b)
  | px, py =>
    match SFcompare (ToNumber px) (ToNumber py) with
    | None => None
    | Some Lt => Some true
    | Some _ => Some false
    end
  end.

(** [x < y] and [x >= y]. *)
Definition LessThan (x y : value) : bool :=
  match IsLessThan x y with
  | Some true => true
  | _ => false
  end.

Definition GreaterThanOrEqual (x y : value) : bool :=
  match IsLessThan x y with
  | Some false => true
  | _ => false
  end.

End WithRuntime.

End JS.

Import JS.

(** ** helpers/sql.js *)

Module Sql.

(** The object [{ setCols, values }] the helper returns. *)
Record result : Type := Result { setCols : string; values : list value }.

Section WithRuntime.
Context {RT : Runtime}.

Definition sqlForPartialUpdate (dataToUpdate jsToSql : object) : exn + result :=
  let keys := Object_keys dataToUpdate in
  if (length keys =? 0)%nat then inl (BadRequestError "No data")
  else
    let cols :=
      imap (fun idx colName =>
              dquote +:+ ToString (LogicalOr (Get jsToSql colName) (VString colName))
                +:+ dquote +:+ "=$" +:+ nat_toString (idx + 1))
           keys in
    inr {| setCols := join ", " cols;
           values := Object_values dataToUpdate |}.

End WithRuntime.

End Sql.

(** ** The local variables of a [getByFilter] call, and its effects *)

(** [queryString], [values] and [whereFilters] are the three [let]
    variables of both methods; [console] collects what [console.log]
    printed. *)
Record frame : Type := Frame {
  queryString : string;
  values : list value;
  whereFilters : list string;
  console : list (string * list value)
}.

(** The frame on entry: nothing declared, nothing printed. *)
Definition frame0 : frame :=
  {| queryString := ""; values := []; whereFilters := []; console := [] |}.

Inductive outcome (A : Type) : Type :=
| Return (a : A)
| Throw (e : exn).
Arguments Return {A} a.
Arguments Throw {A} e.

(** A statement sequence: it reads and writes the frame, and ends by
    completing normally or by throwing. *)
Definition M (A : Type) : Type := frame -> outcome A * frame.

Definition ret {A : Type} (a : A) : M A := fun fr => (Return a, fr).

Definition bind {A B : Type} (m : M A) (k : A -> M B) : M B :=
  fun fr =>
    match m fr with
    | (Return a, fr') => k a fr'
    | (Throw e, fr') => (Throw e, fr')
    end.

Definition throw {A : Type} (e : exn) : M A := fun fr => (Throw e, fr).

Declare Scope js_scope.
Delimit Scope js_scope with js.
Notation "x <- m ;; k" := (bind m (fun x => k))
  (at level 100, m at next level, right associativity) : js_scope.
Notation "m ;; k" := (bind m (fun _ => k))
  (at level 100, right associativity) : js_scope.
Open Scope js_scope.

(** [if (c) { body }] without an [else]. *)
Definition when (c : bool) (body : M unit) : M unit :=
  if c then body else ret tt.

(** [for (let key in o) { body }]. *)
Fixpoint for_each (keys : list string) (body : string -> M unit) : M unit :=
  match keys with
  | [] => ret tt
  | key :: rest => body key ;; for_each rest body
  end.

Definition for_in (o : object) (body : string -> M unit) : M unit :=
  for_each (Object_keys o) body.

(** Reads and writes of the local variables. *)
Definition get_queryString : M string := fun fr => (Return (queryString fr), fr).
Definition get_values : M (list value) := fun fr => (Return (values fr), fr).
Definition get_whereFilters : M (list string) := fun fr => (Return (whereFilters fr), fr).

Definition set_queryString (s : string) : M unit :=
  fun fr => (Return tt, {| queryString := s; values := values fr;
                           whereFilters := whereFilters fr; console := console fr |}).
Definition set_values (vs : list value) : M unit :=
  fun fr => (Return tt, {| queryString := queryString fr; values := vs;
                           whereFilters := whereFilters fr; console := console fr |}).
Definition set_whereFilters (ws : list string) : M unit :=
  fun fr => (Return tt, {| queryString := queryString fr; values := values fr;
                           whereFilters := ws; console := console fr |}).

(** [values.push(v)] and [whereFilters.push(s)]. *)
Definition values_push (v : value) : M unit :=
  vs <- get_values ;; set_values (vs ++ [v]).
Definition whereFilters_push (s : string) : M unit :=
  ws <- get_whereFilters ;; set_whereFilters (ws ++ [s]).

(** [console.log(s, vs)]. *)
Definition console_log (s : string) (vs : list value) : M unit :=
  fun fr => (Return tt, {| queryString := queryString fr; values := values fr;
                           whereFilters := whereFilters fr;
                           console := console fr ++ [(s, vs)] |}).

(** [(await db.query(q, vs)).rows]. *)
Definition await_db_query {RT : Runtime} (q : string) (vs : list value) : M (list object) :=
  match db_query q vs with
  | inl message => throw (DatabaseError message)
  | inr rows => ret rows
  end.

(** ** models/company.js *)

Module Company.

Definition select_shell : string :=
  "SELECT handle, name, description, num_employees as " +:+ dquote +:+ "numEmployees"
    +:+ dquote +:+ ", logo_URL AS " +:+ dquote +:+ "logoUrl" +:+ dquote
    +:+ " FROM companies WHERE ".

Section WithRuntime.
Context {RT : Runtime}.

Definition getByFilter (filters : object) : M (list object) :=
  for_in filters (fun key =>
    when (ToBoolean_int32
            (Z.land (Z.land (Z.b2z (string_StrictNotEquals key "name"))
                            (Z.b2z (string_StrictNotEquals key "maxEmployees")))
                    (Z.b2z (string_StrictNotEquals key "minEmployees"))))
         (throw (BadRequestError "Invalid filters included"))) ;;
  set_queryString select_shell ;;
  set_values [] ;;
  set_whereFilters [] ;;
  when (LessThan (Get filters "maxEmployees") (Get filters "minEmployees"))
       (throw (BadRequestError "Max/min employees filters are not valid")) ;;
  when (ToBoolean (Get filters "name"))
       (values_push (VString ("%" +:+ ToString (Get filters "name") +:+ "%")) ;;
        vs <- get_values ;;
        let subquery := "name ILIKE $" +:+ nat_toString (length vs) in
        whereFilters_push subquery) ;;
  when (ToBoolean (Get filters "maxEmployees"))
       (values_push (Get filters "maxEmployees") ;;
        vs <- get_values ;;
        let subquery := "num_employees <= $" +:+ nat_toString (length vs) in
        whereFilters_push subquery) ;;
  when (ToBoolean (Get filters "minEmployees"))
       (values_push (Get filters "minEmployees") ;;
        vs <- get_values ;;
        let subquery := "num_employees >= $" +:+ nat_toString (length vs) in
        whereFilters_push subquery) ;;
  q <- get_queryString ;;
  ws <- get_whereFilters ;;
  set_queryString (q +:+ join " AND " ws) ;;
  q <- get_queryString ;;
  vs <- get_values ;;
  console_log q vs ;;
  await_db_query q vs.

End WithRuntime.

End Company.

(** ** models/job.js *)

Module Job.

Definition select_shell : string :=
  "SELECT title, salary, equity, company_handle as " +:+ dquote +:+ "companyHandle"
    +:+ dquote +:+ " FROM jobs WHERE ".

Section WithRuntime.
Context {RT : Runtime}.

Definition getByFilter (filters : object) : M (list object) :=
  for_in filters (fun key =>
    when (ToBoolean_int32
            (Z.land (Z.land (Z.b2z (string_StrictNotEquals key "title"))
                            (Z.b2z (string_StrictNotEquals key "minSalary")))
                    (Z.b2z (string_StrictNotEquals key "hasEquity"))))
         (throw (BadRequestError "Invalid filters included"))) ;;
  set_queryString select_shell ;;
  set_values [] ;;
  set_whereFilters [] ;;
  when (GreaterThanOrEqual (Get filters "equity") (VNumber Number_0_1))
       (throw (BadRequestError "Invalid equity")) ;;
  when (ToBoolean (Get filters "title"))
       (values_push (VString ("%" +:+ ToString (Get filters "title") +:+ "%")) ;;
        vs <- get_values ;;
        let subquery := "title ILIKE $" +:+ nat_toString (length vs) in
        whereFilters_push subquery) ;;
  when (ToBoolean (Get filters "minSalary"))
       (values_push (Get filters "minSalary") ;;
        vs <- get_values ;;
        let subquery := "salary >= $" +:+ nat_toString (length vs) in
        whereFilters_push subquery) ;;
  when (StrictEquals (Get filters "hasEquity") (VBool true))
       (let subquery := "equity IS NOT NULL AND equity > 0" in
        whereFilters_push subquery) ;;
  q <- get_queryString ;;
  ws <- get_whereFilters ;;
  set_queryString (q +:+ join " AND " ws) ;;
  q <- get_queryString ;;
  vs <- get_values ;;
  await_db_query q vs.

End WithRuntime.

End Job.

(** ** Reading a clause back: its positional placeholders *)

Module SqlText.

(** The digits a string starts with. *)
Fixpoint digits_prefix (s : string) : uint :=
  match s with
  | String "0" s' => D0 (digits_prefix s')
  | String "1" s' => D1 (digits_prefix s')
  | String "2" s' => D2 (digits_prefix s')
  | String "3" s' => D3 (digits_prefix s')
  | String "4" s' => D4 (digits_prefix s')
  | String "5" s' => D5 (digits_prefix s')
  | String "6" s' => D6 (digits_prefix s')
  | String "7" s' => D7 (digits_prefix s')
  | String "8" s' => D8 (digits_prefix s')
  | String "9" s' => D9 (digits_prefix s')
  | _ => Nil
  end%char.

(** The placeholders of a piece of SQL, left to right: every [$]
    followed by digits that stands outside a double-quoted identifier
    ([quoted] tells whether the scan is inside one). *)
Fixpoint scan (quoted : bool) (s : string) : list nat :=
  match s with
  | EmptyString => []
  | String c s' =>
    if Ascii.eqb c dquote_char then scan (negb quoted) s'
    else if Ascii.eqb c "$" && negb quoted then
      match digits_prefix s' with
      | Nil => scan quoted s'
      | d => Nat.of_uint d :: scan quoted s'
      end
    else scan quoted s'
  end.

Definition placeholders (s : string) : list nat := scan false s.

(** Whether a string holds a double quote, and whether it starts with a digit. *)
Fixpoint has_dquote (s : string) : bool :=
  match s with
  | EmptyString => false
  | String c s' => Ascii.eqb c dquote_char || has_dquote s'
  end.

Definition starts_with_digit (s : string) : bool :=
  match digits_prefix s with
  | Nil => false
  | _ => true
  end.

End SqlText.

Import SqlText.

(** ** A runtime for the worked examples *)

(** Integers are printed and read in decimal (which is what Node does for
    the integers the examples use), and the database holds no rows. *)
Definition Number_toString_integer (x : spec_float) : string :=
  match x with
  | S754_nan => "NaN"
  | S754_zero _ => "0"
  | S754_infinity false => "Infinity"
  | S754_infinity true => "-Infinity"
  | S754_finite s m e =>
    (if s then "-" else "") +:+ nat_toString (Z.to_nat (Z.shiftl (Zpos m) e))
  end.

Definition StringToNumber_integer (s : string) : spec_float :=
  match s with
  | EmptyString => S754_zero false
  | _ =>
    match NilEmpty.uint_of_string s with
    | Some d => Number_of_Z (Z.of_nat (Nat.of_uint d))
    | None => S754_nan
    end
  end.

Definition example_runtime : Runtime :=
  {| Number_toString := Number_toString_integer;
     StringToNumber := StringToNumber_integer;
     db_query := fun _ _ => inr [] |}.

(** ** The vocabulary of the statements *)

Section Specification.
Context {RT : Runtime}.

(** The column a payload key resolves to, as the code computes it. *)
Definition resolved_column (jsToSql : object) (key : string) : string :=
  ToString (LogicalOr (Get jsToSql key) (VString key)).

(** The Ith assignment of a SET clause (I counted from 1). *)
Definition assignment (column : string) (i : nat) : string :=
  dquote +:+ column +:+ dquote +:+ "=$" +:+ nat_toString i.

(** The column rule as the specification words it: the map's entry when
    the key is present in the map, the key itself otherwise. *)
Definition spec_column (columnMap : object) (key : string) : string :=
  match GetOwnProperty columnMap key with
  | Some v => ToString v
  | None => key
  end.

Definition spec_setCols (data columnMap : object) : string :=
  join ", " (imap (fun i key => assignment (spec_column columnMap key) (i + 1))
                  (Object_keys data)).

(** The allow-lists of the two filter builders. *)
Definition company_filters : list string := ["name"; "maxEmployees"; "minEmployees"].
Definition job_filters : list string := ["title"; "minSalary"; "hasEquity"].

(** A filter that binds a parameter: the fragment's text up to its
    placeholder number, and the value bound to it. *)
Abbreviation binding := (string * value)%type.

Definition fragment_of (i : nat) (b : binding) : string := b.1 +:+ nat_toString (i + 1).

Definition use_if (c : bool) (b : binding) : list binding := if c then [b] else [].

(** The filters a companies payload puts to use, in building order. *)
Definition company_bindings (filters : object) : list binding :=
  use_if (ToBoolean (Get filters "name"))
         ("name ILIKE $", VString ("%" +:+ ToString (Get filters "name") +:+ "%"))
  ++ use_if (ToBoolean (Get filters "maxEmployees"))
            ("num_employees <= $", Get filters "maxEmployees")
  ++ use_if (ToBoolean (Get filters "minEmployees"))
            ("num_employees >= $", Get filters "minEmployees").

(** The same for a jobs payload; [hasEquity] binds nothing. *)
Definition job_bindings (filters : object) : list binding :=
  use_if (ToBoolean (Get filters "title"))
         ("title ILIKE $", VString ("%" +:+ ToString (Get filters "title") +:+ "%"))
  ++ use_if (ToBoolean (Get filters "minSalary"))
            ("salary >= $", Get filters "minSalary").

Definition job_equity_fragment (filters : object) : list string :=
  match Get filters "hasEquity" with
  | VBool true => ["equity IS NOT NULL AND equity > 0"]
  | _ => []
  end.

(** The building rule as the specification words it: a filter is put to
    use when it is present in the payload. *)
Definition present (o : object) (key : string) : bool :=
  match GetOwnProperty o key with
  | Some _ => true
  | None => false
  end.

Definition spec_company_bindings (filters : object) : list binding :=
  use_if (present filters "name")
         ("name ILIKE $", VString ("%" +:+ ToString (Get filters "name") +:+ "%"))
  ++ use_if (present filters "maxEmployees")
            ("num_employees <= $", Get filters "maxEmployees")
  ++ use_if (present filters "minEmployees")
            ("num_employees >= $", Get filters "minEmployees").

Definition spec_job_bindings (filters : object) : list binding :=
  use_if (present filters "title")
         ("title ILIKE $", VString ("%" +:+ ToString (Get filters "title") +:+ "%"))
  ++ use_if (present filters "minSalary")
            ("salary >= $", Get filters "minSalary").

(** What the database answers, as the outcome of the final [await]. *)
Definition db_outcome (q : string) (vs : list value) : outcome (list object) :=
  match db_query q vs with
  | inl message => Throw (DatabaseError message)
  | inr rows => Return rows
  end.

End Specification.

(** The payloads and maps of the examples. *)
Definition num (z : Z) : value := VNumber (Number_of_Z z).

(** 0.5, as a binary64 value. *)
Definition one_half : value := VNumber (binary_normalize 53 1024 1 (-1) false).

(** The payload and column map of sql.test.js. *)
Definition test_data : object := [("firstname", VString "Max"); ("lastname", VString "Smith")].
Definition test_jsToSql : object :=
  [("firstname", VString "first_name"); ("lastname", VString "last_name")].

(** The characters U+10000 and U+FFFF, in UTF-8. *)
Definition U_10000 : string :=
  String "240"%char (String "144"%char (String "128"%char (String "128"%char EmptyString))).
Definition U_FFFF : string :=
  String "239"%char (String "191"%char (String "191"%char EmptyString)).

(** A payload key that closes the quoted identifier it is put in. *)
Definition quote_breaking_key : string := "a" +:+ dquote +:+ "=$7, " +:+ dquote +:+ "b".


(** ** The rest of the data-access layer: models/company.js, models/job.js *)

(** Besides the exceptions of [exn], the other methods throw the
    [NotFoundError] of expressError.js, and one of them reads an
    identifier that is bound nowhere, which is a [ReferenceError]. *)
Inductive error : Type :=
| Err (e : exn)
| NotFoundError (message : string)
| ReferenceError (message : string).

Inductive completion (A : Type) : Type :=
| Ok (a : A)
| Raise (e : error).
Arguments Ok {A} a.
Arguments Raise {A} e.

(** A statement handed to [db.query]: its text and its parameters. *)
Abbreviation statement := (string * list value)%type.

(** A method body: it sends statements to the database, in order, and
    ends by returning or by throwing. *)
Definition DB (A : Type) : Type := list statement -> completion A * list statement.

Definition db_ret {A : Type} (a : A) : DB A := fun sent => (Ok a, sent).

Definition db_bind {A B : Type} (m : DB A) (k : A -> DB B) : DB B :=
  fun sent =>
    match m sent with
    | (Ok a, sent') => k a sent'
    | (Raise e, sent') => (Raise e, sent')
    end.

Definition db_raise {A : Type} (e : error) : DB A := fun sent => (Raise e, sent).

Declare Scope db_scope.
Delimit Scope db_scope with db.
Notation "x <- m ;; k" := (db_bind m (fun x => k))
  (at level 100, m at next level, right associativity) : db_scope.

(** [(await db.query(text, params)).rows]. *)
Definition query {RT : Runtime} (text : string) (params : list value) : DB (list object) :=
  fun sent =>
    match db_query text params with
    | inl message => (Raise (Err (DatabaseError message)), sent ++ [(text, params)])
    | inr rows => (Ok rows, sent ++ [(text, params)])
    end.

(** A call of a helper that returns or throws without touching the database. *)
Definition call {A : Type} (r : exn + A) : DB A :=
  match r with
  | inl e => db_raise (Err e)
  | inr a => db_ret a
  end.

(** The statements a method sends when it starts with none sent. *)
Definition sent_by {A : Type} (m : DB A) : list statement := (m []).2.

(** The line break of a template literal. *)
Definition nl : string := String "010"%char EmptyString.

Module CompanyOps.

(** The statement texts of the methods, as their template literals spell them. *)
Definition create_check_sql : string :=
  join nl
    [ "SELECT handle";
      "           FROM companies";
      "           WHERE handle = $1" ].

Definition create_insert_sql : string :=
  join nl
    [ "INSERT INTO companies";
      "           (handle, name, description, num_employees, logo_url)";
      "           VALUES ($1, $2, $3, $4, $5)";
      "           RETURNING handle, name, description, num_employees AS " +:+ dquote
        +:+ "numEmployees" +:+ dquote +:+ ", logo_url AS " +:+ dquote +:+ "logoUrl"
        +:+ dquote ].

Definition findAll_sql : string :=
  join nl
    [ "SELECT handle,";
      "                  name,";
      "                  description,";
      "                  num_employees AS " +:+ dquote +:+ "numEmployees" +:+ dquote +:+ ",";
      "                  logo_url AS " +:+ dquote +:+ "logoUrl" +:+ dquote;
      "           FROM companies";
      "           ORDER BY name" ].

Definition get_sql : string :=
  join nl
    [ "SELECT handle,";
      "                  name,";
      "                  description,";
      "                  num_employees AS " +:+ dquote +:+ "numEmployees" +:+ dquote +:+ ",";
      "                  logo_url AS " +:+ dquote +:+ "logoUrl" +:+ dquote;
      "           FROM companies";
      "           WHERE handle = $1" ].

Definition remove_sql : string :=
  join nl
    [ "DELETE";
      "           FROM companies";
      "           WHERE handle = $1";
      "           RETURNING handle" ].

Definition update_sql (setCols handleVarIdx : string) : string :=
  join nl
    [ "UPDATE companies ";
      "                      SET " +:+ setCols +:+ " ";
      "                      WHERE handle = " +:+ handleVarIdx +:+ " ";
      "                      RETURNING handle, ";
      "                                name, ";
      "                                description, ";
      "                                num_employees AS " +:+ dquote +:+ "numEmployees"
        +:+ dquote +:+ ", ";
      "                                logo_url AS " +:+ dquote +:+ "logoUrl" +:+ dquote ].

Section WithRuntime.
Context {RT : Runtime}.

Definition create (data : object) : DB (option object) :=
  (let handle := Get data "handle" in
   let name := Get data "name" in
   let description := Get data "description" in
   let numEmployees := Get data "numEmployees" in
   let logoUrl := Get data "logoUrl" in
   duplicateCheck <- query create_check_sql [handle] ;;
   match duplicateCheck !! 0 with
   | Some _ => db_raise (Err (BadRequestError ("Duplicate company: " +:+ ToString handle)))
   | None =>
     result <- query create_insert_sql [handle; name; description; numEmployees; logoUrl] ;;
     let company := result !! 0 in
     db_ret company
   end)%db.

Definition findAll : DB (list object) :=
  (companiesRes <- query findAll_sql [] ;;
   db_ret companiesRes)%db.

Definition get (handle : value) : DB object :=
  (companyRes <- query get_sql [handle] ;;
   match companyRes !! 0 with
   | None => db_raise (NotFoundError ("No company: " +:+ ToString handle))
   | Some company => db_ret company
   end)%db.

(** The column map [update] passes to the helper. *)
Definition update_jsToSql : object :=
  [("numEmployees", VString "num_employees"); ("logoUrl", VString "logo_url")].

Definition update (handle : value) (data : object) : DB object :=
  (r <- call (Sql.sqlForPartialUpdate data update_jsToSql) ;;
   let setCols := Sql.setCols r in
   let values := Sql.values r in
   let handleVarIdx := "$" +:+ nat_toString (length values + 1) in
   let querySql := update_sql setCols handleVarIdx in
   result <- query querySql (values ++ [handle]) ;;
   match result !! 0 with
   | None => db_raise (NotFoundError ("No company: " +:+ ToString handle))
   | Some company => db_ret company
   end)%db.

Definition remove (handle : value) : DB unit :=
  (result <- query remove_sql [handle] ;;
   match result !! 0 with
   | None => db_raise (NotFoundError ("No company: " +:+ ToString handle))
   | Some _ => db_ret tt
   end)%db.

End WithRuntime.

End CompanyOps.

Module JobOps.

(** The statement texts of the methods, as their template literals spell them. *)
Definition create_check_sql : string :=
  join nl
    [ "SELECT title";
      "           FROM jobs";
      "           WHERE title = $1" ].

Definition create_insert_sql : string :=
  join nl
    [ "INSERT INTO jobs";
      "           (title, salary, equity, company_handle)";
      "           VALUES ($1, $2, $3, $4)";
      "           RETURNING title, salary, equity, company_handle AS " +:+ dquote
        +:+ "companyHandle" +:+ dquote ].

Definition findAll_sql : string :=
  join nl
    [ "SELECT id,";
      "                  title,";
      "                  salary,";
      "                  equity,";
      "                  company_handle AS " +:+ dquote +:+ "companyHandle" +:+ dquote;
      "           FROM jobs";
      "           ORDER BY title" ].

Definition get_sql : string :=
  join nl
    [ "SELECT id, title,";
      "                  salary,";
      "                  equity,";
      "                  company_handle AS " +:+ dquote +:+ "companyHandle" +:+ dquote;
      "           FROM jobs";
      "           WHERE title = $1" ].

Definition getByCompany_sql : string :=
  join nl
    [ "SELECT id, title,";
      "              salary,";
      "              equity,";
      "              company_handle AS " +:+ dquote +:+ "companyHandle" +:+ dquote;
      "       FROM jobs";
      "       WHERE company_handle = $1" ].

Definition remove_sql : string :=
  join nl
    [ "DELETE";
      "           FROM jobs";
      "           WHERE title = $1";
      "           RETURNING title" ].

Definition update_sql (setCols idIdx : string) : string :=
  join nl
    [ "UPDATE jobs ";
      "                      SET " +:+ setCols +:+ " ";
      "                      WHERE id = " +:+ idIdx +:+ " ";
      "                      RETURNING id, title, ";
      "                                salary, ";
      "                                equity, ";
      "                                company_handle AS " +:+ dquote +:+ "companyHandle"
        +:+ dquote ].

Section WithRuntime.
Context {RT : Runtime}.

Definition create (data : object) : DB (option object) :=
  (let title := Get data "title" in
   let salary := Get data "salary" in
   let equity := Get data "equity" in
   let companyHandle := Get data "companyHandle" in
   duplicateCheck <- query create_check_sql [title] ;;
   match duplicateCheck !! 0 with
   | Some _ => db_raise (Err (BadRequestError ("Duplicate job: " +:+ ToString title)))
   | None =>
     result <- query create_insert_sql [title; salary; equity; companyHandle] ;;
     let job := result !! 0 in
     db_ret job
   end)%db.

Definition findAll : DB (list object) :=
  (jobsRes <- query findAll_sql [] ;;
   db_ret jobsRes)%db.

Definition get (title : value) : DB object :=
  (jobRes <- query get_sql [title] ;;
   match jobRes !! 0 with
   | None => db_raise (NotFoundError ("No job: " +:+ ToString title))
   | Some job => db_ret job
   end)%db.

(** In the [throw] of this method the template literal reads [title],
    which is neither a parameter nor a variable of the module: evaluating
    it throws a [ReferenceError] before the [NotFoundError] is built. *)
Definition getByCompany (company : value) : DB (list object) :=
  (jobRes <- query getByCompany_sql [company] ;;
   let jobs := jobRes in
   if (length jobs =? 0)%nat then db_raise (ReferenceError "title is not defined")
   else db_ret jobs)%db.

Definition update (id : value) (data : object) : DB object :=
  (r <- call (Sql.sqlForPartialUpdate data []) ;;
   let setCols := Sql.setCols r in
   let values := Sql.values r in
   let idIdx := "$" +:+ nat_toString (length values + 1) in
   let querySql := update_sql setCols idIdx in
   result <- query querySql (values ++ [id]) ;;
   match result !! 0 with
   | None => db_raise (NotFoundError ("No job with id " +:+ ToString id))
   | Some job => db_ret job
   end)%db.

Definition remove (title : value) : DB unit :=
  (result <- query remove_sql [title] ;;
   match result !! 0 with
   | None => db_raise (NotFoundError ("No job: " +:+ ToString title))
   | Some _ => db_ret tt
   end)%db.

End WithRuntime.

End JobOps.

(** ** routes/jobs.js *)

Module JobsRoutes.

(** What a handler does with the request: it answers with a JSON body,
    or hands an error to [next]. *)
Inductive response : Type :=
| res_json_jobs (jobs : list object)
| next (err : error).

(** An exception of the first part of the file, as a thrown value here. *)
Definition of_outcome {A : Type} (o : outcome A) : completion A :=
  match o with
  | Return a => Ok a
  | Throw e => Raise (Err e)
  end.

Section WithRuntime.
Context {RT : Runtime}.

(** [router.get("/", ...)], given [req.query]. *)
Definition get_root (req_query : object) : response :=
  let attempt : completion (list object) :=
    if negb (length (Object_keys req_query) =? 0)%nat
    then of_outcome (Job.getByFilter req_query frame0).1
    else (JobOps.findAll []).1 in
  match attempt with
  | Ok jobs => res_json_jobs jobs
  | Raise err => next err
  end.

End WithRuntime.

End JobsRoutes.

(** ** More vocabulary for the statements *)

(** A string with no double quote and no dollar sign. *)
Fixpoint is_plain (s : string) : bool :=
  match s with
  | EmptyString => true
  | String c s' =>
    negb (Ascii.eqb c dquote_char) && negb (Ascii.eqb c "$") && is_plain s'
  end.

(** A statement whose placeholders are $1..$n for its n parameters. *)
Definition well_bound (st : statement) : Prop :=
  placeholders st.1 = seq 1 (length st.2).

(** The calls of the data-access methods other than [getByFilter]. *)
Inductive method_call : Type :=
| CompanyCreate (data : object)
| CompanyFindAll
| CompanyGet (handle : value)
| CompanyUpdate (handle : value) (data : object)
| CompanyRemove (handle : value)
| JobCreate (data : object)
| JobFindAll
| JobGet (title : value)
| JobGetByCompany (company : value)
| JobUpdate (id : value) (data : object)
| JobRemove (title : value).

Section MethodCalls.
Context {RT : Runtime}.

Definition statements_of (c : method_call) : list statement :=
  match c with
  | CompanyCreate data => sent_by (CompanyOps.create data)
  | CompanyFindAll => sent_by CompanyOps.findAll
  | CompanyGet handle => sent_by (CompanyOps.get handle)
  | CompanyUpdate handle data => sent_by (CompanyOps.update handle data)
  | CompanyRemove handle => sent_by (CompanyOps.remove handle)
  | JobCreate data => sent_by (JobOps.create data)
  | JobFindAll => sent_by JobOps.findAll
  | JobGet title => sent_by (JobOps.get title)
  | JobGetByCompany company => sent_by (JobOps.getByCompany company)
  | JobUpdate id data => sent_by (JobOps.update id data)
  | JobRemove title => sent_by (JobOps.remove title)
  end.

(** The caller's obligation for the two [update] methods: no column name
    the payload resolves to holds a double quote. *)
Definition columns_quote_free (c : method_call) : Prop :=
  match c with
  | CompanyUpdate _ data =>
    forall key, key ∈ Object_keys data ->
      has_dquote (resolved_column CompanyOps.update_jsToSql key) = false
  | JobUpdate _ data =>
    forall key, key ∈ Object_keys data -> has_dquote (resolved_column [] key) = false
  | _ => True
  end.

End MethodCalls.
(** * Properties *)

(** ** Strings and decimal numerals *)

Lemma app_cons (c : ascii) (s t : string) : String c s +:+ t = String c (s +:+ t).
Proof. reflexivity. Qed.

Lemma app_empty_l (t : string) : "" +:+ t = t.
Proof. reflexivity. Qed.

Lemma app_empty_r (s : string) : s +:+ "" = s.
Proof. induction s as [|c s IH]; [reflexivity|]. rewrite app_cons, IH. reflexivity. Qed.

Lemma app_assoc_string (a b c : string) : (a +:+ b) +:+ c = a +:+ (b +:+ c).
Proof.
  induction a as [|x a IH]; [reflexivity|].
  rewrite !app_cons, IH. reflexivity.
Qed.

Lemma to_uint_not_Nil (n : nat) : Nat.to_uint n <> Nil.
Proof.
  intros E. pose proof (Unsigned.of_to n) as H. rewrite E in H.
  subst n. discriminate E.
Qed.

(** ** Scanning a clause *)

Lemma digits_prefix_of_uint (d : uint) (rest : string) :
  starts_with_digit rest = false ->
  digits_prefix (NilEmpty.string_of_uint d +:+ rest) = d.
Proof.
  intros Hrest. induction d; simpl NilEmpty.string_of_uint;
    rewrite ?app_cons; simpl digits_prefix; try (f_equal; assumption).
  rewrite app_empty_l. unfold starts_with_digit in Hrest.
  destruct (digits_prefix rest); [reflexivity | discriminate..].
Qed.

Lemma scan_digits (q : bool) (d : uint) (rest : string) :
  scan q (NilEmpty.string_of_uint d +:+ rest) = scan q rest.
Proof.
  induction d; simpl NilEmpty.string_of_uint; rewrite ?app_cons;
    [reflexivity | simpl scan; destruct q; simpl; assumption ..].
Qed.

Lemma scan_quoted_skip (c rest : string) :
  has_dquote c = false -> scan true (c +:+ rest) = scan true rest.
Proof.
  induction c as [|x c IH]; [reflexivity|].
  simpl has_dquote. intros H. apply orb_false_iff in H as [Hx Hc].
  rewrite app_cons. simpl scan. rewrite Hx, andb_false_r. auto.
Qed.

Lemma scan_assignment (column : string) (n : nat) (rest : string) :
  has_dquote column = false ->
  starts_with_digit rest = false ->
  scan false (assignment column n +:+ rest) = n :: scan false rest.
Proof.
  intros Hc Hrest. unfold assignment, dquote.
  rewrite !app_assoc_string, app_cons, app_empty_l.
  change (scan false (String dquote_char ?s)) with (scan true s).
  rewrite scan_quoted_skip by assumption.
  rewrite app_cons, app_empty_l.
  change (scan true (String dquote_char ?s)) with (scan false s).
  change ("=$" +:+ ?s) with (String "="%char (String "$"%char s)).
  cbn [scan]. change (Ascii.eqb "=" dquote_char) with false.
  change (Ascii.eqb "$" dquote_char) with false.
  change (Ascii.eqb "=" "$") with false.
  change (Ascii.eqb "$" "$") with true. cbn [andb negb].
  unfold nat_toString.
  rewrite digits_prefix_of_uint by assumption.
  rewrite scan_digits.
  destruct (Nat.to_uint n) eqn:E; [destruct (to_uint_not_Nil n E) | ..];
    rewrite <- E, Unsigned.of_to; reflexivity.
Qed.

Lemma scan_join_assignments (columns : list string) (start : nat) :
  Forall (fun c => has_dquote c = false) columns ->
  scan false (join ", " (imap (fun i c => assignment c (start + i + 1)) columns))
  = seq (start + 1) (length columns).
Proof.
  intros Hall. revert start.
  induction Hall as [|c columns Hc Hall IH]; intros start; [reflexivity|].
  rewrite imap_cons.
  rewrite (imap_ext _ (fun i c => assignment c (S start + i + 1))); cycle 1.
  { intros i x _. simpl. f_equal. lia. }
  specialize (IH (S start)).
  replace (start + 0 + 1) with (start + 1) by lia.
  destruct columns as [|c' columns'].
  - change (scan false (assignment c (start + 1)) = [start + 1]).
    rewrite <- (app_empty_r (assignment c (start + 1))).
    rewrite scan_assignment by (assumption || reflexivity). reflexivity.
  - rewrite imap_cons in *.
    change (join ", " (?x :: ?y :: ?l)) with (x +:+ ", " +:+ join ", " (y :: l)).
    rewrite scan_assignment by (assumption || reflexivity).
    change (scan false (", " +:+ ?s)) with (scan false s).
    rewrite IH. simpl. do 2 f_equal; lia.
Qed.

(** ** JavaScript operators *)

Section Operators.
Context {RT : Runtime}.

Lemma resolved_column_cases (jsToSql : object) (key : string) :
  resolved_column jsToSql key
  = if ToBoolean (Get jsToSql key) then ToString (Get jsToSql key) else key.
Proof. unfold resolved_column, LogicalOr. destruct (ToBoolean _); reflexivity. Qed.





Lemma LessThan_numbers (x y : spec_float) :
  LessThan (VNumber x) (VNumber y) = SFltb x y.
Proof. unfold LessThan, IsLessThan, SFltb. simpl. by destruct (SFcompare x y) as [[| |]|]. Qed.

Lemma LessThan_strings (a b : string) :
  LessThan (VString a) (VString b) = code_units_ltb (code_units a) (code_units b).
Proof.
  unfold LessThan, IsLessThan, string_LessThan. simpl.
  by destruct (code_units_ltb _ _).
Qed.


Lemma Get_own (o : object) (k : string) (v : value) :
  GetOwnProperty o k = Some v -> Get o k = v.
Proof. unfold Get. intros ->. reflexivity. Qed.

Lemma GetOwnProperty_None (o : object) (k : string) :
  GetOwnProperty o k = None <-> k ∉ Object_keys o.
Proof.
  unfold Object_keys. induction o as [|[k' v] o IH]; simpl.
  - split; [intros _; apply not_elem_of_nil | reflexivity].
  - rewrite not_elem_of_cons. destruct (String.eqb_spec k' k) as [->|Hne].
    + split; [discriminate | intros [[] _]; reflexivity].
    + rewrite IH. split; [intros H; split; [congruence | exact H] | intros [_ H]; exact H].
Qed.

End Operators.

(** ** helpers/sql.js *)

Section SqlForPartialUpdate.
Context {RT : Runtime}.

Lemma sqlForPartialUpdate_keys (data jsToSql : object) :
  Object_keys data <> [] ->
  Sql.sqlForPartialUpdate data jsToSql
  = inr {| Sql.setCols :=
             join ", " (imap (fun i c => assignment c (i + 1))
                             (map (resolved_column jsToSql) (Object_keys data)));
           Sql.values := Object_values data |}.
Proof.
  intros Hne. unfold Sql.sqlForPartialUpdate.
  destruct (Object_keys data) as [|k ks] eqn:E; [congruence|].
  change (length (k :: ks) =? 0)%nat with false. cbv iota.
  do 3 f_equal. change (resolved_column jsToSql <$> k :: ks) with (resolved_column jsToSql <$> (k :: ks)).
  rewrite imap_fmap. apply imap_ext. intros i x _. reflexivity.
Qed.

Lemma sqlForPartialUpdate_no_keys (data jsToSql : object) :
  Object_keys data = [] ->
  Sql.sqlForPartialUpdate data jsToSql = inl (BadRequestError "No data").
Proof. unfold Sql.sqlForPartialUpdate. intros ->. reflexivity. Qed.

End SqlForPartialUpdate.

Section SqlForPartialUpdateClaims.
Context {RT : Runtime}.

Lemma Object_values_lookup (data : object) (i : nat) (key : string) :
  Object_keys data !! i = Some key ->
  exists v, GetOwnProperty data key = Some v /\ Object_values data !! i = Some v.
Proof.
  intros Hi. unfold Object_values. rewrite list_lookup_fmap, Hi. simpl.
  destruct (GetOwnProperty data key) as [v|] eqn:E.
  - exists v. split; [reflexivity|]. f_equal. apply Get_own, E.
  - apply GetOwnProperty_None in E. destruct E. eapply list_elem_of_lookup_2, Hi.
Qed.

Lemma sqlForPartialUpdate_placeholders (data jsToSql : object) (r : Sql.result) :
  Sql.sqlForPartialUpdate data jsToSql = inr r ->
  (forall key, key ∈ Object_keys data -> has_dquote (resolved_column jsToSql key) = false) ->
  placeholders (Sql.setCols r) = seq 1 (length (Sql.values r)).
Proof.
  intros Hr Hq. destruct (Object_keys data) as [|k ks] eqn:E.
  - rewrite sqlForPartialUpdate_no_keys in Hr by assumption. discriminate.
  - rewrite sqlForPartialUpdate_keys in Hr by congruence.
    injection Hr as <-. cbn [Sql.setCols Sql.values].
    unfold placeholders. etrans; [apply (scan_join_assignments _ 0)|].
    + rewrite E. apply Forall_fmap, Forall_forall. intros key Hkey. apply Hq, Hkey.
    + unfold Object_values. by rewrite !length_fmap.
Qed.

(** C1 (amended).  For a payload with keys k1..kn, n >= 1, in property
    order and any column map, [sqlForPartialUpdate] returns; [setCols] is
    the [", "]-join of n assignments, the Ith being ["<ci>"=$<i>] where ci
    is the string form of [jsToSql[ki]] when that value is truthy and ki
    itself otherwise; [values] holds the payload's n values in key order.
    When every key is either mapped to a truthy entry or absent from the
    map (and not a name inherited from [Object.prototype]), this is the
    specification's own rule [spec_setCols]. *)
Theorem sqlForPartialUpdate_assignments (data jsToSql : object) :
  Object_keys data <> [] ->
  exists (r : Sql.result) (cols : list string),
    Sql.sqlForPartialUpdate data jsToSql = inr r
    /\ Sql.setCols r = join ", " cols
    /\ length cols = length (Object_keys data)
    /\ length (Sql.values r) = length (Object_keys data)
    /\ (forall i key, Object_keys data !! i = Some key ->
          cols !! i
          = Some (assignment (if ToBoolean (Get jsToSql key)
                              then ToString (Get jsToSql key) else key) (i + 1))
          /\ exists v, GetOwnProperty data key = Some v /\ Sql.values r !! i = Some v)
    /\ ((forall key, key ∈ Object_keys data ->
           match GetOwnProperty jsToSql key with
           | Some v => ToBoolean v = true
           | None => GetOwnProperty Object_prototype key = None
           end) ->
        Sql.setCols r = spec_setCols data jsToSql).
Proof.
  intros Hne. eexists _, _. split; [apply sqlForPartialUpdate_keys, Hne|].
  cbn [Sql.setCols Sql.values].
  split; [reflexivity|]. split; [by rewrite length_imap, length_fmap|].
  split; [unfold Object_values; by rewrite length_fmap|]. split.
  - intros i key Hi. split; [|apply Object_values_lookup, Hi].
    rewrite list_lookup_imap, list_lookup_fmap, Hi. simpl.
    by rewrite resolved_column_cases.
  - intros Hmap. unfold spec_setCols. f_equal. rewrite imap_fmap.
    apply imap_ext. intros i key Hi. simpl. f_equal.
    specialize (Hmap key (list_elem_of_lookup_2 _ _ _ Hi)).
    unfold resolved_column, LogicalOr, spec_column, Get.
    destruct (GetOwnProperty jsToSql key) as [v|]; [by rewrite Hmap|].
    by rewrite Hmap.
Qed.

(** C3.  [sqlForPartialUpdate] throws exactly when the payload has no
    key, whatever the column map, and what it throws is the
    [BadRequestError] "No data"; with at least one key it returns. *)
Theorem sqlForPartialUpdate_throws_iff_no_keys (data jsToSql : object) :
  ((exists message, Sql.sqlForPartialUpdate data jsToSql = inl (BadRequestError message))
   <-> Object_keys data = [])
  /\ ((exists e, Sql.sqlForPartialUpdate data jsToSql = inl e)
      <-> Object_keys data = [])
  /\ ((exists r, Sql.sqlForPartialUpdate data jsToSql = inr r)
      <-> Object_keys data <> []).
Proof.
  destruct (Object_keys data) as [|k ks] eqn:E.
  - rewrite sqlForPartialUpdate_no_keys by assumption.
    repeat split; try congruence; eauto.
    intros [r Hr]. discriminate Hr.
  - rewrite sqlForPartialUpdate_keys by congruence.
    repeat split; try congruence; eauto.
    + intros [m Hm]. discriminate Hm.
    + intros [m Hm]. discriminate Hm.
Qed.

(** C10.  The key itself is the column whenever the map's value for the
    key is falsy: also when the key is present in the map with the empty
    string, zero, [null] or [false]. *)
Theorem sqlForPartialUpdate_falsy_fallback (data jsToSql : object) (i : nat) (key : string) :
  Object_keys data !! i = Some key ->
  (GetOwnProperty jsToSql key = Some (VString "")
   \/ (exists s, GetOwnProperty jsToSql key = Some (VNumber (S754_zero s)))
   \/ GetOwnProperty jsToSql key = Some VNull
   \/ GetOwnProperty jsToSql key = Some (VBool false)
   \/ ToBoolean (Get jsToSql key) = false) ->
  exists (r : Sql.result) (cols : list string),
    Sql.sqlForPartialUpdate data jsToSql = inr r
    /\ Sql.setCols r = join ", " cols
    /\ cols !! i = Some (dquote +:+ key +:+ dquote +:+ "=$" +:+ nat_toString (i + 1)).
Proof.
  intros Hi Hfalsy.
  assert (ToBoolean (Get jsToSql key) = false) as Hf.
  { destruct Hfalsy as [H|[[s H]|[H|[H|H]]]]; try exact H;
      rewrite (Get_own _ _ _ H); reflexivity. }
  eexists _, _. split.
  { apply sqlForPartialUpdate_keys. intros E. rewrite E in Hi. discriminate Hi. }
  split; [reflexivity|].
  rewrite list_lookup_imap, list_lookup_fmap, Hi. simpl.
  by rewrite resolved_column_cases, Hf.
Qed.

End SqlForPartialUpdateClaims.

(** ** The filter builders *)

Section Validation.

Lemma for_each_when (keys : list string) (body : string -> M unit)
    (c : string -> bool) (e : exn) (fr : frame) :
  (forall key, body key = when (c key) (throw e)) ->
  for_each keys body fr
  = if existsb c keys then (Throw e, fr) else (Return tt, fr).
Proof.
  intros Hbody. induction keys as [|k keys IH]; [reflexivity|].
  simpl. unfold bind. rewrite Hbody. unfold when.
  destruct (c k); [reflexivity|]. simpl. exact IH.
Qed.

Lemma allow_list_check (a b c key : string) :
  ToBoolean_int32
    (Z.land (Z.land (Z.b2z (string_StrictNotEquals key a))
                    (Z.b2z (string_StrictNotEquals key b)))
            (Z.b2z (string_StrictNotEquals key c)))
  = negb (bool_decide (key ∈ [a; b; c])).
Proof.
  unfold string_StrictNotEquals.
  destruct (String.eqb_spec key a) as [->|Ha].
  { rewrite bool_decide_eq_true_2 by apply list_elem_of_here. reflexivity. }
  destruct (String.eqb_spec key b) as [->|Hb].
  { rewrite bool_decide_eq_true_2 by (apply list_elem_of_further, list_elem_of_here).
    reflexivity. }
  destruct (String.eqb_spec key c) as [->|Hc].
  { rewrite bool_decide_eq_true_2
      by (do 2 apply list_elem_of_further; apply list_elem_of_here).
    reflexivity. }
  rewrite bool_decide_eq_false_2; [reflexivity|].
  rewrite !elem_of_cons, elem_of_nil. tauto.
Qed.

Lemma existsb_not_allowed (allowed keys : list string) :
  existsb (fun key => negb (bool_decide (key ∈ allowed))) keys = false
  <-> forall key, key ∈ keys -> key ∈ allowed.
Proof.
  induction keys as [|k keys IH]; simpl.
  - split; [intros _ key H; by apply elem_of_nil in H | reflexivity].
  - rewrite orb_false_iff, IH, negb_false_iff, bool_decide_eq_true.
    split.
    + intros [Hk Hks] key [->|H]%elem_of_cons; auto.
    + intros H. split; [apply H, list_elem_of_here|].
      intros key Hkey. apply H, list_elem_of_further, Hkey.
Qed.

Lemma existsb_some_not_allowed (allowed keys : list string) :
  existsb (fun key => negb (bool_decide (key ∈ allowed))) keys = true
  <-> exists key, key ∈ keys /\ key ∉ allowed.
Proof.
  rewrite existsb_exists. split.
  - intros (key & Hin & Hnot). exists key. split; [by apply list_elem_of_In|].
    by apply negb_true_iff, bool_decide_eq_false in Hnot.
  - intros (key & Hin & Hnot). exists key. split; [by apply list_elem_of_In|].
    by apply negb_true_iff, bool_decide_eq_false.
Qed.

End Validation.

Section GetByFilter.
Context {RT : Runtime}.

(** The three ways a companies call ends. *)
Lemma Company_getByFilter_run (filters : object) :
  Company.getByFilter filters frame0
  = if existsb (fun key => negb (bool_decide (key ∈ company_filters))) (Object_keys filters)
    then (Throw (BadRequestError "Invalid filters included"), frame0)
    else if LessThan (Get filters "maxEmployees") (Get filters "minEmployees")
    then (Throw (BadRequestError "Max/min employees filters are not valid"),
          {| queryString := Company.select_shell; values := [];
             whereFilters := []; console := [] |})
    else
      let bs := company_bindings filters in
      let q := Company.select_shell +:+ join " AND " (imap fragment_of bs) in
      (db_outcome q bs.*2,
       {| queryString := q; values := bs.*2;
          whereFilters := imap fragment_of bs; console := [(q, bs.*2)] |}).
Proof.
  unfold Company.getByFilter, for_in. unfold bind at 1.
  rewrite (for_each_when _ _ (fun key => negb (bool_decide (key ∈ company_filters)))
             (BadRequestError "Invalid filters included"))
    by (intros key; f_equal; apply allow_list_check).
  destruct (existsb _ _); [reflexivity|].
  unfold company_bindings.
  generalize (Get filters "name") (Get filters "maxEmployees") (Get filters "minEmployees").
  intros vn vmax vmin.
  cbv [bind set_queryString set_values set_whereFilters when throw ret frame0
       queryString values whereFilters console].
  destruct (LessThan vmax vmin); [reflexivity|].
  destruct (ToBoolean vn), (ToBoolean vmax), (ToBoolean vmin);
    vm_compute;
    match goal with
    | |- context [match ?x with inl _ => _ | inr _ => _ end] => destruct x
    end; reflexivity.
Qed.

(** The three ways a jobs call ends. *)
Lemma Job_getByFilter_run (filters : object) :
  Job.getByFilter filters frame0
  = if existsb (fun key => negb (bool_decide (key ∈ job_filters))) (Object_keys filters)
    then (Throw (BadRequestError "Invalid filters included"), frame0)
    else if GreaterThanOrEqual (Get filters "equity") (VNumber Number_0_1)
    then (Throw (BadRequestError "Invalid equity"),
          {| queryString := Job.select_shell; values := [];
             whereFilters := []; console := [] |})
    else
      let bs := job_bindings filters in
      let ws := imap fragment_of bs ++ job_equity_fragment filters in
      let q := Job.select_shell +:+ join " AND " ws in
      (db_outcome q bs.*2,
       {| queryString := q; values := bs.*2; whereFilters := ws; console := [] |}).
Proof.
  unfold Job.getByFilter, for_in. unfold bind at 1.
  rewrite (for_each_when _ _ (fun key => negb (bool_decide (key ∈ job_filters)))
             (BadRequestError "Invalid filters included"))
    by (intros key; f_equal; apply allow_list_check).
  destruct (existsb _ _); [reflexivity|].
  unfold job_bindings, job_equity_fragment.
  generalize (Get filters "title") (Get filters "minSalary") (Get filters "hasEquity")
             (Get filters "equity").
  intros vt vs ve vq.
  cbv [bind set_queryString set_values set_whereFilters when throw ret frame0
       queryString values whereFilters console].
  destruct (GreaterThanOrEqual vq _); [reflexivity|].
  destruct (ToBoolean vt), (ToBoolean vs), ve as [| |[|]| | |];
    vm_compute;
    match goal with
    | |- context [match ?x with inl _ => _ | inr _ => _ end] => destruct x
    end; reflexivity.
Qed.

(** A payload that passes the jobs allow-list has no [equity] property,
    so the guard on it reads [undefined] and never fires. *)
Lemma Job_equity_guard_unreachable (filters : object) :
  existsb (fun key => negb (bool_decide (key ∈ job_filters))) (Object_keys filters) = false ->
  GreaterThanOrEqual (Get filters "equity") (VNumber Number_0_1) = false.
Proof.
  intros Hok. assert (GetOwnProperty filters "equity" = None) as Hnone.
  { apply GetOwnProperty_None. intros Hin.
    apply (proj1 (existsb_not_allowed _ _) Hok) in Hin.
    unfold job_filters in Hin. rewrite !elem_of_cons, elem_of_nil in Hin.
    destruct Hin as [H|[H|[H|[]]]]; discriminate H. }
  unfold Get. rewrite Hnone. reflexivity.
Qed.

End GetByFilter.

Section CompanyClaims.
Context {RT : Runtime}.

(** C4.  A companies payload with a key outside the allow-list ends in
    the [BadRequestError] "Invalid filters included", thrown from the
    frame of entry: no value pushed, no fragment built.  A payload whose
    keys are all allowed never ends in that error. *)
Theorem Company_getByFilter_allow_list (filters : object) :
  ((exists key, key ∈ Object_keys filters /\ key ∉ company_filters) ->
   Company.getByFilter filters frame0
   = (Throw (BadRequestError "Invalid filters included"), frame0)
   /\ values frame0 = [] /\ whereFilters frame0 = [])
  /\ ((forall key, key ∈ Object_keys filters -> key ∈ company_filters) ->
      forall fr, Company.getByFilter filters frame0
                 <> (Throw (BadRequestError "Invalid filters included"), fr)).
Proof.
  rewrite Company_getByFilter_run. split.
  - intros Hbad. apply existsb_some_not_allowed in Hbad. rewrite Hbad. done.
  - intros Hok fr. apply existsb_not_allowed in Hok. rewrite Hok.
    destruct (LessThan _ _); [congruence|].
    cbv zeta. unfold db_outcome. destruct (db_query _ _); congruence.
Qed.


(** C6 (amended).  For a companies payload that passes both checks, the
    filters put to use are those whose value is truthy, in the order
    name, maxEmployees, minEmployees ([company_bindings]); the Ith of them
    (counted from 1) pushes its value as the Ith element of [values] and
    appends its fragment with placeholder [$I]; the query is the shell
    followed by the fragments joined with " AND ". *)
Theorem Company_getByFilter_builds (filters : object) :
  Forall (fun key => key ∈ company_filters) (Object_keys filters) ->
  LessThan (Get filters "maxEmployees") (Get filters "minEmployees") = false ->
  exists out fr,
    Company.getByFilter filters frame0 = (out, fr)
    /\ values fr = (company_bindings filters).*2
    /\ whereFilters fr = imap fragment_of (company_bindings filters)
    /\ queryString fr = Company.select_shell +:+ join " AND " (whereFilters fr)
    /\ out = db_outcome (queryString fr) (values fr)
    /\ (forall i text v, company_bindings filters !! i = Some (text, v) ->
          values fr !! i = Some v
          /\ whereFilters fr !! i = Some (text +:+ nat_toString (i + 1))).
Proof.
  intros Hok Hlt. rewrite Company_getByFilter_run, Hlt.
  rewrite (proj2 (existsb_not_allowed _ _)); cycle 1.
  { intros key Hkey. by apply (proj1 (Forall_forall _ _) Hok). }
  eexists _, _. split; [reflexivity|]. cbn [values whereFilters queryString].
  do 4 (split; [reflexivity|]).
  intros i text v Hi. split.
  - by rewrite list_lookup_fmap, Hi.
  - by rewrite list_lookup_imap, Hi.
Qed.

End CompanyClaims.

Section JobClaims.
Context {RT : Runtime}.

Lemma GetOwnProperty_perm (o o' : object) (k : string) :
  NoDup (Object_keys o) -> o ≡ₚ o' -> GetOwnProperty o k = GetOwnProperty o' k.
Proof.
  intros Hnd Hp. induction Hp as [|[k1 v1] o o' Hp IH|[k1 v1] [k2 v2] o|o o' o'' H1 IH1 H2 IH2].
  - reflexivity.
  - simpl. apply NoDup_cons in Hnd as [_ Hnd]. by rewrite IH.
  - simpl. destruct (String.eqb_spec k1 k), (String.eqb_spec k2 k); try reflexivity.
    subst. apply NoDup_cons in Hnd as [Hnd _]. destruct Hnd. apply list_elem_of_here.
  - rewrite IH1 by assumption. apply IH2.
    unfold Object_keys in *. by rewrite <- H1.
Qed.

Lemma Get_perm (o o' : object) (k : string) :
  NoDup (Object_keys o) -> o ≡ₚ o' -> Get o k = Get o' k.
Proof. intros Hnd Hp. unfold Get. by rewrite (GetOwnProperty_perm o o' k). Qed.

Lemma Job_getByFilter_valid (filters : object) :
  Forall (fun key => key ∈ job_filters) (Object_keys filters) ->
  Job.getByFilter filters frame0
  = let bs := job_bindings filters in
    let ws := imap fragment_of bs ++ job_equity_fragment filters in
    let q := Job.select_shell +:+ join " AND " ws in
    (db_outcome q bs.*2,
     {| queryString := q; values := bs.*2; whereFilters := ws; console := [] |}).
Proof.
  intros Hok. rewrite Job_getByFilter_run.
  assert (existsb (fun key => negb (bool_decide (key ∈ job_filters)))
            (Object_keys filters) = false) as Hkeys.
  { apply existsb_not_allowed. intros key Hkey.
    by apply (proj1 (Forall_forall _ _) Hok). }
  by rewrite Hkeys, Job_equity_guard_unreachable.
Qed.

(** C5 (amended).  For a jobs payload of allowed keys the fragments are
    built in the order title, minSalary, hasEquity, whatever the order of
    the payload's keys: a truthy [title] binds ["%" + title + "%"] and
    appends [title ILIKE $<n>], a truthy [minSalary] binds its value and
    appends [salary >= $<n>] (n the position of the bound value), and the
    parameterless [equity IS NOT NULL AND equity > 0] comes last, exactly
    when [hasEquity] is the boolean [true]; the query is the shell
    followed by the fragments joined with " AND ". *)
Theorem Job_getByFilter_builds (filters : object) :
  Forall (fun key => key ∈ job_filters) (Object_keys filters) ->
  exists out fr,
    Job.getByFilter filters frame0 = (out, fr)
    /\ values fr = (job_bindings filters).*2
    /\ whereFilters fr
       = imap fragment_of (job_bindings filters) ++ job_equity_fragment filters
    /\ queryString fr = Job.select_shell +:+ join " AND " (whereFilters fr)
    /\ out = db_outcome (queryString fr) (values fr)
    /\ (forall i text v, job_bindings filters !! i = Some (text, v) ->
          values fr !! i = Some v
          /\ whereFilters fr !! i = Some (text +:+ nat_toString (i + 1)))
    /\ ("equity IS NOT NULL AND equity > 0" ∈ whereFilters fr
        <-> Get filters "hasEquity" = VBool true)
    /\ (forall filters', NoDup (Object_keys filters) -> filters ≡ₚ filters' ->
          Job.getByFilter filters' frame0 = (out, fr)).
Proof.
  intros Hok. rewrite Job_getByFilter_valid by assumption.
  eexists _, _. split; [reflexivity|]. cbn [values whereFilters queryString].
  do 4 (split; [reflexivity|]). split; [|split].
  - intros i text v Hi. split; [by rewrite list_lookup_fmap, Hi|].
    rewrite lookup_app_l by (rewrite length_imap; eapply lookup_lt_Some, Hi).
    by rewrite list_lookup_imap, Hi.
  - unfold job_bindings, job_equity_fragment.
    destruct (ToBoolean (Get filters "title")), (ToBoolean (Get filters "minSalary")),
      (Get filters "hasEquity") as [| |[|]| | |];
      rewrite list_elem_of_In; vm_compute;
      (split; [intros H; repeat (destruct H as [H|H]; try discriminate H);
                 first [reflexivity | destruct H]
              | intros H; first [discriminate H | tauto]]).
  - intros filters' Hnd Hp.
    rewrite Job_getByFilter_valid.
    + unfold job_bindings, job_equity_fragment.
      by rewrite <- !(Get_perm filters filters').
    + unfold Object_keys in *. by rewrite <- Hp.
Qed.

(** C8 (amended).  A jobs payload that has the key [equity], whatever its
    value, ends in the [BadRequestError] "Invalid filters included" of the
    allow-list check, thrown from the frame of entry; and no jobs payload
    ends in the error "Invalid equity". *)
Theorem Job_getByFilter_equity_key (filters : object) :
  "equity" ∈ Object_keys filters ->
  Job.getByFilter filters frame0
  = (Throw (BadRequestError "Invalid filters included"), frame0)
  /\ forall (filters' : object) (fr : frame),
       Job.getByFilter filters' frame0 <> (Throw (BadRequestError "Invalid equity"), fr).
Proof.
  intros Hin. split.
  - rewrite Job_getByFilter_run.
    rewrite (proj2 (existsb_some_not_allowed _ _)); [reflexivity|].
    exists "equity". split; [assumption|].
    unfold job_filters. rewrite !elem_of_cons, elem_of_nil.
    intros [H|[H|[H|[]]]]; discriminate H.
  - intros filters' fr. rewrite Job_getByFilter_run.
    destruct (existsb _ _) eqn:Hkeys; [congruence|].
    rewrite Job_equity_guard_unreachable by assumption.
    cbv zeta. unfold db_outcome. destruct (db_query _ _); congruence.
Qed.

(** C9.  On the empty payload neither builder throws a
    [BadRequestError]; both leave no fragment and no value, so the WHERE
    clause is the empty string and the query is the bare shell. *)
Theorem getByFilter_empty_payload :
  Company.getByFilter [] frame0
  = (db_outcome Company.select_shell [],
     {| queryString := Company.select_shell; values := []; whereFilters := [];
        console := [(Company.select_shell, [])] |})
  /\ Job.getByFilter [] frame0
     = (db_outcome Job.select_shell [],
        {| queryString := Job.select_shell; values := []; whereFilters := [];
           console := [] |})
  /\ join " AND " [] = ""
  /\ (forall q vs message, db_outcome q vs <> Throw (BadRequestError message)).
Proof.
  rewrite Company_getByFilter_run, Job_getByFilter_run.
  repeat split.
  intros q vs message. unfold db_outcome. destruct (db_query q vs); congruence.
Qed.

End JobClaims.

Section Placeholders.
Context {RT : Runtime}.

Lemma company_clause_placeholders (filters : object) :
  let bs := company_bindings filters in
  placeholders (join " AND " (imap fragment_of bs)) = seq 1 (length bs.*2)
  /\ placeholders (Company.select_shell +:+ join " AND " (imap fragment_of bs))
     = seq 1 (length bs.*2).
Proof.
  unfold company_bindings.
  destruct (ToBoolean (Get filters "name")), (ToBoolean (Get filters "maxEmployees")),
    (ToBoolean (Get filters "minEmployees")); split; reflexivity.
Qed.

Lemma job_clause_placeholders (filters : object) :
  let bs := job_bindings filters in
  let ws := imap fragment_of bs ++ job_equity_fragment filters in
  placeholders (join " AND " ws) = seq 1 (length bs.*2)
  /\ placeholders (Job.select_shell +:+ join " AND " ws) = seq 1 (length bs.*2).
Proof.
  unfold job_bindings, job_equity_fragment.
  destruct (ToBoolean (Get filters "title")), (ToBoolean (Get filters "minSalary")),
    (Get filters "hasEquity") as [| |[|]| | |]; split; reflexivity.
Qed.

Lemma assignment_placeholders (column : string) (i : nat) :
  has_dquote column = false -> placeholders (assignment column i) = [i].
Proof.
  intros Hc. unfold placeholders.
  rewrite <- (app_empty_r (assignment column i)).
  by rewrite scan_assignment.
Qed.

Lemma company_fragment_placeholders (filters : object) (i : nat) (fragment : string) :
  imap fragment_of (company_bindings filters) !! i = Some fragment ->
  placeholders fragment = [i + 1] /\ is_Some ((company_bindings filters).*2 !! i).
Proof.
  unfold company_bindings.
  destruct (ToBoolean (Get filters "name")), (ToBoolean (Get filters "maxEmployees")),
    (ToBoolean (Get filters "minEmployees"));
    repeat (destruct i as [|i]; try discriminate);
    intros [= <-]; split; (reflexivity || eexists; reflexivity).
Qed.

Lemma job_fragment_placeholders (filters : object) (i : nat) (fragment : string) :
  (imap fragment_of (job_bindings filters) ++ job_equity_fragment filters) !! i
  = Some fragment ->
  (placeholders fragment = [i + 1] /\ is_Some ((job_bindings filters).*2 !! i))
  \/ (placeholders fragment = [] /\ fragment = "equity IS NOT NULL AND equity > 0"
      /\ Get filters "hasEquity" = VBool true).
Proof.
  unfold job_bindings, job_equity_fragment.
  destruct (ToBoolean (Get filters "title")), (ToBoolean (Get filters "minSalary")),
    (Get filters "hasEquity") as [| |[|]| | |];
    repeat (destruct i as [|i]; try discriminate);
    intros [= <-];
    first [ left; split; [reflexivity | eexists; reflexivity]
          | right; repeat split; reflexivity ].
Qed.

(** C2 (amended).  In what a builder leaves behind, the placeholders
    read off the clause from left to right, outside double-quoted
    identifiers, are $1, $2, ..., $n with n the length of the value list,
    so the Nth placeholder is [$N] and the Nth value is the one bound to
    it: for [sqlForPartialUpdate] whenever no resolved column name
    holds a double quote, and for both [getByFilter] methods always (the
    [hasEquity] fragment holds no placeholder and adds no value). *)
Theorem placeholders_numbered :
  (forall (data jsToSql : object) (r : Sql.result),
     Sql.sqlForPartialUpdate data jsToSql = inr r ->
     (forall key, key ∈ Object_keys data ->
        has_dquote (resolved_column jsToSql key) = false) ->
     placeholders (Sql.setCols r) = seq 1 (length (Sql.values r))
     /\ exists cols, Sql.setCols r = join ", " cols
        /\ forall i key, Object_keys data !! i = Some key ->
             exists a v, cols !! i = Some a /\ placeholders a = [i + 1]
                         /\ Sql.values r !! i = Some v
                         /\ GetOwnProperty data key = Some v)
  /\ (forall (filters : object) out fr,
        Company.getByFilter filters frame0 = (out, fr) ->
        placeholders (join " AND " (whereFilters fr)) = seq 1 (length (values fr))
        /\ placeholders (queryString fr) = seq 1 (length (values fr))
        /\ forall i fragment, whereFilters fr !! i = Some fragment ->
             placeholders fragment = [i + 1] /\ is_Some (values fr !! i))
  /\ (forall (filters : object) out fr,
        Job.getByFilter filters frame0 = (out, fr) ->
        placeholders (join " AND " (whereFilters fr)) = seq 1 (length (values fr))
        /\ placeholders (queryString fr) = seq 1 (length (values fr))
        /\ forall i fragment, whereFilters fr !! i = Some fragment ->
             (placeholders fragment = [i + 1] /\ is_Some (values fr !! i))
             \/ (placeholders fragment = []
                 /\ fragment = "equity IS NOT NULL AND equity > 0"
                 /\ Get filters "hasEquity" = VBool true)).
Proof.
  split; [|split].
  - intros data jsToSql r Hr Hq.
    split; [by apply (sqlForPartialUpdate_placeholders data jsToSql)|].
    destruct (Object_keys data) as [|k ks] eqn:E.
    { rewrite sqlForPartialUpdate_no_keys in Hr by assumption. discriminate. }
    rewrite sqlForPartialUpdate_keys in Hr by congruence. injection Hr as <-.
    eexists. split; [reflexivity|]. intros i key Hi. rewrite <- E in Hi.
    destruct (Object_values_lookup data i key Hi) as (v & Hv & Hvi).
    eexists _, v. rewrite list_lookup_imap, list_lookup_fmap, Hi.
    split; [reflexivity|]. split; [|done].
    apply assignment_placeholders, Hq. rewrite <- E.
    eapply list_elem_of_lookup_2, Hi.
  - intros filters out fr. rewrite Company_getByFilter_run.
    destruct (existsb _ _); [intros [= _ <-]; repeat split; discriminate|].
    destruct (LessThan _ _); [intros [= _ <-]; repeat split; discriminate|].
    cbv zeta. intros [= _ <-]. cbn [whereFilters values queryString].
    destruct (company_clause_placeholders filters) as [H1 H2].
    split; [exact H1|]. split; [exact H2|]. apply company_fragment_placeholders.
  - intros filters out fr. rewrite Job_getByFilter_run.
    destruct (existsb _ _); [intros [= _ <-]; repeat split; discriminate|].
    destruct (GreaterThanOrEqual _ _); [intros [= _ <-]; repeat split; discriminate|].
    cbv zeta. intros [= _ <-]. cbn [whereFilters values queryString].
    destruct (job_clause_placeholders filters) as [H1 H2].
    split; [exact H1|]. split; [exact H2|]. apply job_fragment_placeholders.
Qed.

End Placeholders.

(** ** Worked examples *)

(** The literal [0.1] is the correctly rounded quotient of 1 by 10. *)
Example Number_0_1_is_one_tenth :
  SFdiv 53 1024 (Number_of_Z 1) (Number_of_Z 10) = Number_0_1.
Proof. reflexivity. Qed.

(** sql.test.js, "Data sent, return object created". *)
Example sql_test_data_sent :
  @Sql.sqlForPartialUpdate example_runtime test_data test_jsToSql
  = inr {| Sql.setCols := dquote +:+ "first_name" +:+ dquote +:+ "=$1, "
                            +:+ dquote +:+ "last_name" +:+ dquote +:+ "=$2";
           Sql.values := [VString "Max"; VString "Smith"] |}.
Proof. reflexivity. Qed.

(** sql.test.js, "No data sent (0 fields to update)". *)
Example sql_test_no_data :
  @Sql.sqlForPartialUpdate example_runtime [] test_jsToSql = inl (BadRequestError "No data").
Proof. reflexivity. Qed.

(** The specification's examples for the companies builder. *)
Example company_type_12 :
  @Company.getByFilter example_runtime [("type", num 12)] frame0
  = (Throw (BadRequestError "Invalid filters included"), frame0).
Proof. reflexivity. Qed.

Example company_max_5_min_10 :
  @Company.getByFilter example_runtime
    [("maxEmployees", num 5); ("minEmployees", num 10)] frame0
  = (Throw (BadRequestError "Max/min employees filters are not valid"),
     {| queryString := Company.select_shell; values := []; whereFilters := [];
        console := [] |}).
Proof. reflexivity. Qed.

(** Query-string values are strings, and two strings are compared as
    strings: "5" is not below "10", and "10" is below "5". *)
Lemma Company_getByFilter_string_bounds {RT : Runtime} :
  (exists out fr,
     Company.getByFilter [("maxEmployees", VString "5"); ("minEmployees", VString "10")]
                         frame0 = (out, fr)
     /\ values fr = [VString "5"; VString "10"]
     /\ whereFilters fr = ["num_employees <= $1"; "num_employees >= $2"])
  /\ Company.getByFilter [("maxEmployees", VString "10"); ("minEmployees", VString "5")]
                         frame0
     = (Throw (BadRequestError "Max/min employees filters are not valid"),
        {| queryString := Company.select_shell; values := []; whereFilters := [];
           console := [] |}).
Proof.
  split; [|reflexivity].
  rewrite Company_getByFilter_run. eexists _, _. split; [reflexivity|].
  split; reflexivity.
Qed.

(** A payload key that names a property every object inherits is found
    in an empty column map all the same, so it does not fall back to
    itself. *)
Lemma sqlForPartialUpdate_inherited_name {RT : Runtime} :
  exists r,
    Sql.sqlForPartialUpdate [("constructor", num 1)] [] = inr r
    /\ Sql.setCols r
       = dquote +:+ "function Object() { [native code] }" +:+ dquote +:+ "=$1"
    /\ Sql.setCols r <> dquote +:+ "constructor" +:+ dquote +:+ "=$1".
Proof. eexists. split; [reflexivity|]. split; [reflexivity | discriminate]. Qed.

(** *** Instances of the theorems above *)

Lemma sqlForPartialUpdate_assignments_witness :
  exists (r : Sql.result) (cols : list string),
    @Sql.sqlForPartialUpdate example_runtime test_data test_jsToSql = inr r
    /\ Sql.setCols r = join ", " cols
    /\ length cols = 2
    /\ length (Sql.values r) = 2
    /\ Sql.setCols r = @spec_setCols example_runtime test_data test_jsToSql.
Proof.
  destruct (@sqlForPartialUpdate_assignments example_runtime test_data test_jsToSql)
    as (r & cols & H1 & H2 & H3 & H4 & _ & H6); [discriminate|].
  exists r, cols. repeat split; try assumption.
  apply H6. intros key Hkey.
  repeat (apply elem_of_cons in Hkey as [->|Hkey]; [reflexivity|]).
  by apply elem_of_nil in Hkey.
Defined.

Lemma sqlForPartialUpdate_falsy_fallback_witness :
  exists (r : Sql.result) (cols : list string),
    @Sql.sqlForPartialUpdate example_runtime [("a", num 1)] [("a", VString "")] = inr r
    /\ Sql.setCols r = join ", " cols
    /\ cols !! 0 = Some (dquote +:+ "a" +:+ dquote +:+ "=$1").
Proof.
  apply (@sqlForPartialUpdate_falsy_fallback example_runtime
           [("a", num 1)] [("a", VString "")] 0 "a").
  - reflexivity.
  - left. reflexivity.
Defined.

Lemma Company_getByFilter_allow_list_witness :
  @Company.getByFilter example_runtime [("name", VString "net"); ("type", num 12)] frame0
  = (Throw (BadRequestError "Invalid filters included"), frame0)
  /\ values frame0 = [] /\ whereFilters frame0 = [].
Proof.
  apply (proj1 (@Company_getByFilter_allow_list example_runtime
                  [("name", VString "net"); ("type", num 12)])).
  exists "type". split; [apply list_elem_of_further, list_elem_of_here|].
  unfold company_filters. rewrite !elem_of_cons, elem_of_nil.
  intros [H|[H|[H|[]]]]; discriminate H.
Defined.


Lemma placeholders_numbered_witness :
  exists r : Sql.result,
    @Sql.sqlForPartialUpdate example_runtime test_data test_jsToSql = inr r
    /\ placeholders (Sql.setCols r) = [1; 2]
    /\ length (Sql.values r) = 2.
Proof.
  eexists. split; [reflexivity|]. split; [|reflexivity].
  apply (proj1 (@placeholders_numbered example_runtime) test_data test_jsToSql).
  - reflexivity.
  - intros key Hkey.
    repeat (apply elem_of_cons in Hkey as [->|Hkey]; [reflexivity|]).
    by apply elem_of_nil in Hkey.
Defined.

Lemma Company_getByFilter_builds_witness :
  exists out fr,
    @Company.getByFilter example_runtime
      [("name", VString "net"); ("minEmployees", num 5)] frame0 = (out, fr)
    /\ values fr = [VString "%net%"; num 5]
    /\ whereFilters fr = ["name ILIKE $1"; "num_employees >= $2"].
Proof.
  destruct (@Company_getByFilter_builds example_runtime
              [("name", VString "net"); ("minEmployees", num 5)])
    as (out & fr & H1 & H2 & H3 & _).
  - repeat constructor.
  - reflexivity.
  - exists out, fr. split; [exact H1|]. split; [exact H2 | exact H3].
Defined.

Lemma Job_getByFilter_builds_witness :
  exists out fr,
    @Job.getByFilter example_runtime
      [("hasEquity", VBool true); ("minSalary", num 20); ("title", VString "j")] frame0
    = (out, fr)
    /\ values fr = [VString "%j%"; num 20]
    /\ whereFilters fr
       = ["title ILIKE $1"; "salary >= $2"; "equity IS NOT NULL AND equity > 0"]
    /\ @Job.getByFilter example_runtime
         [("title", VString "j"); ("minSalary", num 20); ("hasEquity", VBool true)] frame0
       = (out, fr).
Proof.
  destruct (@Job_getByFilter_builds example_runtime
              [("hasEquity", VBool true); ("minSalary", num 20); ("title", VString "j")])
    as (out & fr & H1 & H2 & H3 & _ & _ & _ & _ & H7).
  - repeat constructor.
  - exists out, fr. split; [exact H1|]. split; [exact H2|]. split; [exact H3|].
    apply H7.
    + apply (bool_decide_unpack _). vm_compute. exact I.
    + exact (Permutation_rev _).
Defined.

Lemma Job_getByFilter_equity_key_witness :
  @Job.getByFilter example_runtime
    [("title", VString "j"); ("equity", VString "0.05")] frame0
  = (Throw (BadRequestError "Invalid filters included"), frame0).
Proof.
  apply (@Job_getByFilter_equity_key example_runtime
           [("title", VString "j"); ("equity", VString "0.05")]).
  apply list_elem_of_further, list_elem_of_here.
Defined.

(** *** Where the specification and the code part *)

(** C1 fails as stated: a key that is present in the map with the empty
    string keeps its own name, where the specification's rule takes the
    map's entry. *)
Lemma sqlForPartialUpdate_present_but_empty :
  @Sql.sqlForPartialUpdate example_runtime [("a", num 1)] [("a", VString "")]
  = inr {| Sql.setCols := dquote +:+ "a" +:+ dquote +:+ "=$1"; Sql.values := [num 1] |}
  /\ @spec_setCols example_runtime [("a", num 1)] [("a", VString "")]
     = dquote +:+ dquote +:+ "=$1"
  /\ dquote +:+ "a" +:+ dquote +:+ "=$1" <> dquote +:+ dquote +:+ "=$1".
Proof. repeat split. discriminate. Qed.

(** C2 fails as stated: a payload key holding a double quote ends the
    quoted identifier early, and the clause then reads [$7] before [$1]
    although one value is bound. *)
Lemma sqlForPartialUpdate_quote_in_key :
  @Sql.sqlForPartialUpdate example_runtime [(quote_breaking_key, num 1)] []
  = inr {| Sql.setCols := dquote +:+ "a" +:+ dquote +:+ "=$7, " +:+ dquote +:+ "b"
                            +:+ dquote +:+ "=$1";
           Sql.values := [num 1] |}
  /\ placeholders (dquote +:+ "a" +:+ dquote +:+ "=$7, " +:+ dquote +:+ "b"
                     +:+ dquote +:+ "=$1") = [7; 1]
  /\ [7; 1] <> seq 1 (length [num 1]).
Proof. repeat split. discriminate. Qed.

(** C5 fails as stated: a [title] filter that is present with the empty
    string builds nothing, where the specification's rule binds "%%" and
    appends [title ILIKE $1]. *)
Lemma Job_getByFilter_empty_title :
  (@Job.getByFilter example_runtime [("title", VString "")] frame0).2
  = {| queryString := Job.select_shell; values := []; whereFilters := [];
       console := [] |}
  /\ @spec_job_bindings example_runtime [("title", VString "")]
     = [("title ILIKE $", VString "%%")]
  /\ @nil value <> (@spec_job_bindings example_runtime [("title", VString "")]).*2.
Proof. repeat split. discriminate. Qed.

(** C6 fails as stated: a [name] filter that is present with the empty
    string passes both checks and builds nothing, where the
    specification's rule binds "%%" and appends [name ILIKE $1]. *)
Lemma Company_getByFilter_empty_name :
  (@Company.getByFilter example_runtime [("name", VString "")] frame0).2
  = {| queryString := Company.select_shell; values := []; whereFilters := [];
       console := [(Company.select_shell, [])] |}
  /\ @spec_company_bindings example_runtime [("name", VString "")]
     = [("name ILIKE $", VString "%%")]
  /\ @nil value <> (@spec_company_bindings example_runtime [("name", VString "")]).*2.
Proof. repeat split. discriminate. Qed.


(** C8 fails as stated: with [equity] set to 0.5, which is at least 0.1,
    the error is the one of the allow-list check, not "Invalid equity". *)
Lemma Job_getByFilter_equity_one_half :
  @Job.getByFilter example_runtime [("equity", one_half)] frame0
  = (Throw (BadRequestError "Invalid filters included"), frame0)
  /\ @GreaterThanOrEqual example_runtime one_half (VNumber Number_0_1) = true
  /\ BadRequestError "Invalid filters included" <> BadRequestError "Invalid equity".
Proof. repeat split. discriminate. Qed.

(** * Further properties: the rest of the data-access layer *)

(** ** Scanning a statement *)

Lemma scan_plain (q : bool) (p rest : string) :
  is_plain p = true -> scan q (p +:+ rest) = scan q rest.
Proof.
  induction p as [|c p IH]; [reflexivity|].
  simpl is_plain. intros H.
  apply andb_true_iff in H as [H Hp]. apply andb_true_iff in H as [Hq Hd].
  apply negb_true_iff in Hq, Hd.
  rewrite app_cons. simpl scan. rewrite Hq, Hd. auto.
Qed.

Lemma scan_dollar_number (m : nat) (rest : string) :
  starts_with_digit rest = false ->
  scan false ("$" +:+ nat_toString m +:+ rest) = m :: scan false rest.
Proof.
  intros Hrest.
  change ("$" +:+ ?s) with (String "$"%char s).
  cbn [scan]. change (Ascii.eqb "$" dquote_char) with false.
  change (Ascii.eqb "$" "$") with true. cbn [andb negb].
  unfold nat_toString.
  rewrite digits_prefix_of_uint by assumption.
  rewrite scan_digits.
  destruct (Nat.to_uint m) eqn:E; [destruct (to_uint_not_Nil m E) | ..];
    rewrite <- E, Unsigned.of_to; reflexivity.
Qed.

Lemma scan_join_assignments_then (columns : list string) (start : nat) (rest : string) :
  columns <> [] ->
  Forall (fun c => has_dquote c = false) columns ->
  starts_with_digit rest = false ->
  scan false (join ", " (imap (fun i c => assignment c (start + i + 1)) columns) +:+ rest)
  = seq (start + 1) (length columns) ++ scan false rest.
Proof.
  intros Hne Hall Hrest. revert start.
  induction Hall as [|c columns Hc Hall IH]; intros start; [congruence|].
  rewrite imap_cons.
  rewrite (imap_ext _ (fun i c => assignment c (S start + i + 1))); cycle 1.
  { intros i x _. simpl. f_equal. lia. }
  replace (start + 0 + 1) with (start + 1) by lia.
  destruct columns as [|c' columns'].
  - change (scan false (assignment c (start + 1) +:+ rest)
            = (start + 1) :: scan false rest).
    by rewrite scan_assignment.
  - specialize (IH ltac:(congruence) (S start)).
    rewrite imap_cons in *.
    change (join ", " (?x :: ?y :: ?l)) with (x +:+ ", " +:+ join ", " (y :: l)).
    rewrite !app_assoc_string.
    rewrite scan_assignment by (assumption || reflexivity).
    change (scan false (", " +:+ ?s)) with (scan false s).
    rewrite IH. simpl. do 2 f_equal; lia.
Qed.

(** A statement made of a plain head, a SET clause, a plain middle, one
    more placeholder and a tail without placeholders. *)
Lemma update_shape_placeholders (h m t : string) (columns : list string) :
  is_plain h = true -> is_plain m = true ->
  (forall r, starts_with_digit (m +:+ r) = false) -> starts_with_digit t = false ->
  scan false t = [] ->
  columns <> [] ->
  Forall (fun c => has_dquote c = false) columns ->
  placeholders (h +:+ join ", " (imap (fun i c => assignment c (i + 1)) columns)
                  +:+ m +:+ "$" +:+ nat_toString (length columns + 1) +:+ t)
  = seq 1 (length columns + 1).
Proof.
  intros Hh Hm Hm' Ht Ht' Hne Hall. unfold placeholders.
  rewrite scan_plain by assumption.
  rewrite (scan_join_assignments_then columns 0) by (assumption || apply Hm').
  rewrite scan_plain by assumption.
  rewrite scan_dollar_number, Ht' by assumption.
  rewrite seq_app. simpl. do 2 f_equal. lia.
Qed.

(** ** The two [update] methods *)

Section Update.
Context {RT : Runtime}.

Lemma CompanyOps_update_sql_shape :
  exists h m t,
    is_plain h = true /\ is_plain m = true
    /\ (forall r, starts_with_digit (m +:+ r) = false)
    /\ starts_with_digit t = false /\ scan false t = []
    /\ forall setCols idx,
         CompanyOps.update_sql setCols idx = h +:+ setCols +:+ m +:+ idx +:+ t.
Proof.
  exists ("UPDATE companies " +:+ nl +:+ "                      SET "),
         (" " +:+ nl +:+ "                      WHERE handle = "),
         (" " +:+ nl +:+ "                      RETURNING handle, " +:+ nl
            +:+ "                                name, " +:+ nl
            +:+ "                                description, " +:+ nl
            +:+ "                                num_employees AS " +:+ dquote
            +:+ "numEmployees" +:+ dquote +:+ ", " +:+ nl
            +:+ "                                logo_url AS " +:+ dquote +:+ "logoUrl"
            +:+ dquote).
  do 5 (split; [reflexivity|]).
  intros setCols idx. unfold CompanyOps.update_sql. cbn [join].
  rewrite !app_assoc_string. reflexivity.
Qed.

Lemma JobOps_update_sql_shape :
  exists h m t,
    is_plain h = true /\ is_plain m = true
    /\ (forall r, starts_with_digit (m +:+ r) = false)
    /\ starts_with_digit t = false /\ scan false t = []
    /\ forall setCols idx,
         JobOps.update_sql setCols idx = h +:+ setCols +:+ m +:+ idx +:+ t.
Proof.
  exists ("UPDATE jobs " +:+ nl +:+ "                      SET "),
         (" " +:+ nl +:+ "                      WHERE id = "),
         (" " +:+ nl +:+ "                      RETURNING id, title, " +:+ nl
            +:+ "                                salary, " +:+ nl
            +:+ "                                equity, " +:+ nl
            +:+ "                                company_handle AS " +:+ dquote
            +:+ "companyHandle" +:+ dquote).
  do 5 (split; [reflexivity|]).
  intros setCols idx. unfold JobOps.update_sql. cbn [join].
  rewrite !app_assoc_string. reflexivity.
Qed.

(** What the helper hands to an [update] method: a SET clause whose
    placeholders are $1..$n, to which the method adds $(n+1). *)
Lemma update_text_placeholders (update_sql : string -> string -> string)
    (data jsToSql : object) :
  (exists h m t,
     is_plain h = true /\ is_plain m = true
     /\ (forall r, starts_with_digit (m +:+ r) = false)
     /\ starts_with_digit t = false /\ scan false t = []
     /\ forall setCols idx, update_sql setCols idx = h +:+ setCols +:+ m +:+ idx +:+ t) ->
  Object_keys data <> [] ->
  (forall key, key ∈ Object_keys data -> has_dquote (resolved_column jsToSql key) = false) ->
  placeholders
    (update_sql
       (join ", " (imap (fun i c => assignment c (i + 1))
                        (map (resolved_column jsToSql) (Object_keys data))))
       ("$" +:+ nat_toString (length (Object_values data) + 1)))
  = seq 1 (length (Object_values data ++ [VUndefined])).
Proof.
  intros (h & m & t & Hh & Hm & Hm' & Ht & Ht' & Hshape) Hne Hq.
  rewrite Hshape, !app_assoc_string.
  unfold Object_values. rewrite length_app, !length_fmap.
  rewrite <- (length_fmap (resolved_column jsToSql) (Object_keys data)).
  apply update_shape_placeholders; try assumption.
  - destruct (Object_keys data); [congruence | discriminate].
  - apply Forall_fmap, Forall_forall. intros key Hkey. apply Hq, Hkey.
Qed.

(** An [update] with an empty payload throws the helper's
    [BadRequestError] "No data" and sends nothing to the database. *)
Theorem update_empty_payload (key : value) (data : object) (sent : list statement) :
  Object_keys data = [] ->
  CompanyOps.update key data sent = (Raise (Err (BadRequestError "No data")), sent)
  /\ JobOps.update key data sent = (Raise (Err (BadRequestError "No data")), sent).
Proof.
  intros Hkeys. unfold CompanyOps.update, JobOps.update, db_bind.
  rewrite !sqlForPartialUpdate_no_keys by assumption. done.
Qed.

(** [Company.update] with a payload of n >= 1 keys, whatever the keys,
    sends exactly one statement, with the payload's values followed by
    the handle as parameters, returns the first row and throws
    "No company: <handle>" when there is none.  When no column name holds
    a double quote the placeholders of the statement are $1..$(n+1), so
    the placeholder after [WHERE handle =] is the last one and the handle
    is what it binds.  A payload key other than numEmployees and logoUrl
    (and not a name every object inherits) is its own column. *)
Theorem CompanyOps_update_statement (handle : value) (data : object) :
  Object_keys data <> [] ->
  let n := length (Object_keys data) in
  exists r text,
    Sql.sqlForPartialUpdate data CompanyOps.update_jsToSql = inr r
    /\ text = CompanyOps.update_sql (Sql.setCols r) ("$" +:+ nat_toString (n + 1))
    /\ sent_by (CompanyOps.update handle data) = [(text, Object_values data ++ [handle])]
    /\ ((forall key, key ∈ Object_keys data ->
           has_dquote (resolved_column CompanyOps.update_jsToSql key) = false) ->
        placeholders text = seq 1 (n + 1))
    /\ length (Object_values data ++ [handle]) = n + 1
    /\ (Object_values data ++ [handle]) !! n = Some handle
    /\ (CompanyOps.update handle data []).1
       = match db_query text (Object_values data ++ [handle]) with
         | inl message => Raise (Err (DatabaseError message))
         | inr [] => Raise (NotFoundError ("No company: " +:+ ToString handle))
         | inr (company :: _) => Ok company
         end
    /\ resolved_column CompanyOps.update_jsToSql "numEmployees" = "num_employees"
    /\ resolved_column CompanyOps.update_jsToSql "logoUrl" = "logo_url"
    /\ (forall key, key <> "numEmployees" -> key <> "logoUrl" ->
          GetOwnProperty Object_prototype key = None ->
          resolved_column CompanyOps.update_jsToSql key = key).
Proof.
  intros Hne n.
  assert (length (Object_values data) = n) as Hlen
    by (unfold Object_values; by rewrite length_fmap).
  eexists _, _. split; [apply sqlForPartialUpdate_keys, Hne|].
  split; [reflexivity|]. cbn [Sql.setCols].
  split; [|split; [|split; [|split; [|split; [|split; [|split]]]]]].
  - unfold sent_by, CompanyOps.update, db_bind.
    rewrite sqlForPartialUpdate_keys by assumption. cbn [call db_ret Sql.setCols Sql.values].
    rewrite Hlen. unfold query. destruct (db_query _ _) as [msg|[|row rows]]; reflexivity.
  - intros Hq. rewrite <- Hlen at 1.
    rewrite (update_text_placeholders CompanyOps.update_sql data _
               CompanyOps_update_sql_shape Hne Hq).
    by rewrite !length_app, Hlen.
  - rewrite length_app, Hlen. reflexivity.
  - rewrite lookup_app_r by lia. by rewrite Hlen, Nat.sub_diag.
  - unfold CompanyOps.update, db_bind.
    rewrite sqlForPartialUpdate_keys by assumption. cbn [call db_ret Sql.setCols Sql.values].
    rewrite Hlen. unfold query. destruct (db_query _ _) as [msg|[|row rows]]; reflexivity.
  - reflexivity.
  - reflexivity.
  - intros key H1 H2 Hproto. unfold resolved_column, LogicalOr, Get.
    cbn [GetOwnProperty CompanyOps.update_jsToSql].
    destruct (String.eqb_spec "numEmployees" key); [congruence|].
    destruct (String.eqb_spec "logoUrl" key); [congruence|].
    by rewrite Hproto.
Qed.

(** [Job.update] with a payload of n >= 1 keys, whatever the keys, sends
    exactly one statement, with the payload's values followed by the id
    as parameters, returns the first row and throws "No job with id <id>"
    when there is none.  When no column name holds a double quote the
    placeholders of the statement are $1..$(n+1), so the placeholder after
    [WHERE id =] is the last one and the id is what it binds.  Every
    payload key that is not a name every object inherits is its own
    column. *)
Theorem JobOps_update_statement (id : value) (data : object) :
  Object_keys data <> [] ->
  let n := length (Object_keys data) in
  exists r text,
    Sql.sqlForPartialUpdate data [] = inr r
    /\ text = JobOps.update_sql (Sql.setCols r) ("$" +:+ nat_toString (n + 1))
    /\ sent_by (JobOps.update id data) = [(text, Object_values data ++ [id])]
    /\ ((forall key, key ∈ Object_keys data ->
           has_dquote (resolved_column [] key) = false) ->
        placeholders text = seq 1 (n + 1))
    /\ length (Object_values data ++ [id]) = n + 1
    /\ (Object_values data ++ [id]) !! n = Some id
    /\ (JobOps.update id data []).1
       = match db_query text (Object_values data ++ [id]) with
         | inl message => Raise (Err (DatabaseError message))
         | inr [] => Raise (NotFoundError ("No job with id " +:+ ToString id))
         | inr (job :: _) => Ok job
         end
    /\ (forall key, GetOwnProperty Object_prototype key = None ->
          resolved_column [] key = key).
Proof.
  intros Hne n.
  assert (length (Object_values data) = n) as Hlen
    by (unfold Object_values; by rewrite length_fmap).
  eexists _, _. split; [apply sqlForPartialUpdate_keys, Hne|].
  split; [reflexivity|]. cbn [Sql.setCols]. split; [|split; [|split; [|split; [|split]]]].
  - unfold sent_by, JobOps.update, db_bind.
    rewrite sqlForPartialUpdate_keys by assumption. cbn [call db_ret Sql.setCols Sql.values].
    rewrite Hlen. unfold query. destruct (db_query _ _) as [msg|[|row rows]]; reflexivity.
  - intros Hq. rewrite <- Hlen at 1.
    rewrite (update_text_placeholders JobOps.update_sql data _
               JobOps_update_sql_shape Hne Hq).
    by rewrite !length_app, Hlen.
  - rewrite length_app, Hlen. reflexivity.
  - rewrite lookup_app_r by lia. by rewrite Hlen, Nat.sub_diag.
  - unfold JobOps.update, db_bind.
    rewrite sqlForPartialUpdate_keys by assumption. cbn [call db_ret Sql.setCols Sql.values].
    rewrite Hlen. unfold query. destruct (db_query _ _) as [msg|[|row rows]]; reflexivity.
  - intros key Hproto. unfold resolved_column, LogicalOr, Get.
    cbn [GetOwnProperty]. by rewrite Hproto.
Qed.

End Update.

(** ** [create]: the duplicate check guards the INSERT *)

Section Create.
Context {RT : Runtime}.

(** [Company.create] always sends the duplicate check with the handle as
    its one parameter.  It sends the INSERT, with the five fields of the
    argument in the order handle, name, description, numEmployees,
    logoUrl, exactly when the check came back with no row; when the check
    finds a row it throws "Duplicate company: <handle>" and nothing
    else is sent. *)
Theorem CompanyOps_create_duplicate_guard (data : object) :
  let handle := Get data "handle" in
  let insert :=
    (CompanyOps.create_insert_sql,
     [handle; Get data "name"; Get data "description"; Get data "numEmployees";
      Get data "logoUrl"]) in
  sent_by (CompanyOps.create data) !! 0 = Some (CompanyOps.create_check_sql, [handle])
  /\ (insert ∈ sent_by (CompanyOps.create data)
      <-> db_query CompanyOps.create_check_sql [handle] = inr [])
  /\ (db_query CompanyOps.create_check_sql [handle] = inr [] ->
      CompanyOps.create data []
      = (match db_query insert.1 insert.2 with
         | inl message => Raise (Err (DatabaseError message))
         | inr rows => Ok (rows !! 0)
         end,
         [(CompanyOps.create_check_sql, [handle]); insert]))
  /\ (forall row rows,
        db_query CompanyOps.create_check_sql [handle] = inr (row :: rows) ->
        CompanyOps.create data []
        = (Raise (Err (BadRequestError ("Duplicate company: " +:+ ToString handle))),
           [(CompanyOps.create_check_sql, [handle])])).
Proof.
  intros handle insert. unfold sent_by, CompanyOps.create, db_bind, query.
  fold handle. subst insert. cbn [fst snd].
  destruct (db_query CompanyOps.create_check_sql [handle]) as [msg|[|row rows]].
  - repeat split; try done.
    intros [H|H]%elem_of_cons; [discriminate H | by apply elem_of_nil in H].
  - destruct (db_query CompanyOps.create_insert_sql _) as [msg|rows'];
      cbn [lookup list_lookup app fst snd]; repeat split; try done;
      intros _; apply list_elem_of_further, list_elem_of_here.
  - repeat split; try done;
      try (intros [H|H]%elem_of_cons; [discriminate H | by apply elem_of_nil in H]);
      try (intros row' rows' [= <- <-]; reflexivity).
Qed.

(** The same for [Job.create], with the four fields title, salary,
    equity, companyHandle and the message "Duplicate job: <title>". *)
Theorem JobOps_create_duplicate_guard (data : object) :
  let title := Get data "title" in
  let insert :=
    (JobOps.create_insert_sql,
     [title; Get data "salary"; Get data "equity"; Get data "companyHandle"]) in
  sent_by (JobOps.create data) !! 0 = Some (JobOps.create_check_sql, [title])
  /\ (insert ∈ sent_by (JobOps.create data)
      <-> db_query JobOps.create_check_sql [title] = inr [])
  /\ (db_query JobOps.create_check_sql [title] = inr [] ->
      JobOps.create data []
      = (match db_query insert.1 insert.2 with
         | inl message => Raise (Err (DatabaseError message))
         | inr rows => Ok (rows !! 0)
         end,
         [(JobOps.create_check_sql, [title]); insert]))
  /\ (forall row rows,
        db_query JobOps.create_check_sql [title] = inr (row :: rows) ->
        JobOps.create data []
        = (Raise (Err (BadRequestError ("Duplicate job: " +:+ ToString title))),
           [(JobOps.create_check_sql, [title])])).
Proof.
  intros title insert. unfold sent_by, JobOps.create, db_bind, query.
  fold title. subst insert. cbn [fst snd].
  destruct (db_query JobOps.create_check_sql [title]) as [msg|[|row rows]].
  - repeat split; try done.
    intros [H|H]%elem_of_cons; [discriminate H | by apply elem_of_nil in H].
  - destruct (db_query JobOps.create_insert_sql _) as [msg|rows'];
      cbn [lookup list_lookup app fst snd]; repeat split; try done;
      intros _; apply list_elem_of_further, list_elem_of_here.
  - repeat split; try done;
      try (intros [H|H]%elem_of_cons; [discriminate H | by apply elem_of_nil in H]);
      try (intros row' rows' [= <- <-]; reflexivity).
Qed.

End Create.

(** ** [Job.getByCompany] *)

Section GetByCompany.
Context {RT : Runtime}.

(** [Job.getByCompany] never ends in a [NotFoundError]: when the
    database has no job for the company, building the error message
    reads the unbound [title] and the call ends in a [ReferenceError];
    otherwise it returns the rows, of which there is at least one. *)
Theorem JobOps_getByCompany_no_rows (company : value) (sent : list statement) :
  (forall message, (JobOps.getByCompany company sent).1 <> Raise (NotFoundError message))
  /\ ((JobOps.getByCompany company sent).1 = Raise (ReferenceError "title is not defined")
      <-> db_query JobOps.getByCompany_sql [company] = inr [])
  /\ (forall jobs, (JobOps.getByCompany company sent).1 = Ok jobs ->
        jobs <> [] /\ db_query JobOps.getByCompany_sql [company] = inr jobs)
  /\ (JobOps.getByCompany company sent).2
     = sent ++ [(JobOps.getByCompany_sql, [company])].
Proof.
  unfold JobOps.getByCompany, db_bind, query.
  destruct (db_query JobOps.getByCompany_sql [company]) as [msg|[|row rows]];
    cbn [fst snd length Nat.eqb];
    (split; [done|]); (split; [done|]); (split; [|done]).
  - intros jobs [=].
  - intros jobs [=].
  - intros jobs [= <-]. done.
Qed.

End GetByCompany.

(** ** Every statement sent binds its placeholders *)

Section Statements.
Context {RT : Runtime}.

Lemma query_sent (text : string) (params : list value) (sent : list statement) :
  (query text params sent).2 = sent ++ [(text, params)].
Proof. unfold query. destruct (db_query text params); reflexivity. Qed.

Lemma update_sent (update_sql : string -> string -> string) (key : value)
    (data jsToSql : object) (not_found : completion object) :
  (exists h m t,
     is_plain h = true /\ is_plain m = true
     /\ (forall r, starts_with_digit (m +:+ r) = false)
     /\ starts_with_digit t = false /\ scan false t = []
     /\ forall setCols idx, update_sql setCols idx = h +:+ setCols +:+ m +:+ idx +:+ t) ->
  (forall k, k ∈ Object_keys data -> has_dquote (resolved_column jsToSql k) = false) ->
  Forall well_bound
    (sent_by (db_bind (call (Sql.sqlForPartialUpdate data jsToSql)) (fun r =>
       db_bind (query (update_sql (Sql.setCols r)
                         ("$" +:+ nat_toString (length (Sql.values r) + 1)))
                      (Sql.values r ++ [key])) (fun result =>
         match result !! 0 with
         | None => fun sent => (not_found, sent)
         | Some row => db_ret row
         end)))).
Proof.
  intros Hshape Hq. unfold sent_by, db_bind at 1.
  destruct (Object_keys data) as [|k ks] eqn:E.
  - rewrite sqlForPartialUpdate_no_keys by assumption. constructor.
  - rewrite sqlForPartialUpdate_keys by congruence.
    cbn [call db_ret Sql.setCols Sql.values]. unfold db_bind.
    pose proof (query_sent
      (update_sql
         (join ", " (imap (fun i c => assignment c (i + 1))
                          (map (resolved_column jsToSql) (Object_keys data))))
         ("$" +:+ nat_toString (length (Object_values data) + 1)))
      (Object_values data ++ [key]) []) as Hsent.
    destruct (query _ _ []) as [[rows|e] sent']; cbn [snd] in Hsent; subst sent'.
    + assert (forall c : completion object * list statement,
                c.2 = [] ++ [(update_sql
                  (join ", " (imap (fun i c => assignment c (i + 1))
                     (map (resolved_column jsToSql) (Object_keys data))))
                  ("$" +:+ nat_toString (length (Object_values data) + 1)),
                  Object_values data ++ [key])] ->
                Forall well_bound c.2) as Hwb.
      { intros c ->. repeat constructor. unfold well_bound. cbn [fst snd].
        rewrite (update_text_placeholders update_sql data jsToSql Hshape)
          by (rewrite ?E; congruence || assumption).
        by rewrite !length_app. }
      apply Hwb. destruct (rows !! 0); reflexivity.
    + repeat constructor. unfold well_bound. cbn [fst snd].
      rewrite (update_text_placeholders update_sql data jsToSql Hshape)
        by (rewrite ?E; congruence || assumption).
      by rewrite !length_app.
Qed.

(** Whatever a data-access method sends to the database, the
    placeholders of each statement are $1..$n for its n parameters;
    for the two [update] methods this needs the caller to keep double
    quotes out of the column names. *)
Theorem statements_well_bound (c : method_call) :
  columns_quote_free c -> Forall well_bound (statements_of c).
Proof.
  destruct c; cbn [columns_quote_free statements_of]; intros Hq;
    try (unfold sent_by, CompanyOps.create, CompanyOps.findAll, CompanyOps.get,
           CompanyOps.remove, JobOps.create, JobOps.findAll, JobOps.get,
           JobOps.getByCompany, JobOps.remove, db_bind, query;
         repeat match goal with
                | |- context [db_query ?q ?p] => destruct (db_query q p) as [?|[|? ?]]
                end;
         cbn [lookup list_lookup app snd length Nat.eqb db_ret db_raise];
         repeat constructor; reflexivity).
  - apply (update_sent CompanyOps.update_sql handle data CompanyOps.update_jsToSql
             (Raise (NotFoundError ("No company: " +:+ ToString handle)))
             CompanyOps_update_sql_shape Hq).
  - apply (update_sent JobOps.update_sql id data []
             (Raise (NotFoundError ("No job with id " +:+ ToString id)))
             JobOps_update_sql_shape Hq).
Qed.

End Statements.

(** ** routes/jobs.js: GET / *)

Section JobsRoute.
Context {RT : Runtime}.

Lemma existsb_nil_keys (f : string -> bool) (keys : list string) :
  keys = [] -> existsb f keys = false.
Proof. by intros ->. Qed.

(** The handler of [GET /jobs] hands a [BadRequestError] to [next]
    exactly when the query has a key outside title, minSalary and
    hasEquity, and the error is then "Invalid filters included"; it never
    hands on a [NotFoundError].  With no query parameter it answers from
    [Job.findAll], so [getByFilter] is never run on the empty payload. *)
Theorem get_root_errors (req_query : object) :
  (JobsRoutes.get_root req_query
   = JobsRoutes.next (Err (BadRequestError "Invalid filters included"))
   <-> exists key, key ∈ Object_keys req_query /\ key ∉ job_filters)
  /\ (forall message,
        JobsRoutes.get_root req_query = JobsRoutes.next (Err (BadRequestError message)) ->
        message = "Invalid filters included")
  /\ (forall message,
        JobsRoutes.get_root req_query <> JobsRoutes.next (NotFoundError message))
  /\ (Object_keys req_query = [] ->
      JobsRoutes.get_root req_query
      = match db_query JobOps.findAll_sql [] with
        | inl message => JobsRoutes.next (Err (DatabaseError message))
        | inr jobs => JobsRoutes.res_json_jobs jobs
        end).
Proof.
  unfold JobsRoutes.get_root. rewrite Job_getByFilter_run.
  rewrite <- existsb_some_not_allowed.
  destruct (Object_keys req_query) as [|k ks] eqn:E.
  - cbn [length Nat.eqb negb existsb]. unfold JobOps.findAll, db_bind, query.
    destruct (db_query JobOps.findAll_sql []); cbn [fst db_ret];
      repeat split; try done.
  - cbn [length Nat.eqb negb].
    destruct (existsb _ (k :: ks)) eqn:Hkeys.
    + cbn [fst JobsRoutes.of_outcome]. repeat split; try done.
      by intros message [= <-].
    + rewrite <- E in Hkeys.
      rewrite (Job_equity_guard_unreachable req_query Hkeys).
      cbv zeta. cbn [fst]. unfold db_outcome.
      destruct (db_query _ _); cbn [JobsRoutes.of_outcome]; repeat split; done.
Qed.

(** Query-string values are strings, so [hasEquity] never is the
    boolean [true]: a request whose title and minSalary are absent or
    empty sends the SELECT shell that ends in [WHERE], with no
    parameter, whatever [hasEquity] says. *)
Theorem get_root_hasEquity_string (req_query : object) :
  Object_keys req_query <> [] ->
  Forall (fun key => key ∈ job_filters) (Object_keys req_query) ->
  (forall key v, GetOwnProperty req_query key = Some v -> exists s, v = VString s) ->
  ToBoolean (Get req_query "title") = false ->
  ToBoolean (Get req_query "minSalary") = false ->
  (Job.getByFilter req_query frame0).2
  = {| queryString := Job.select_shell; values := []; whereFilters := []; console := [] |}
  /\ JobsRoutes.get_root req_query
     = match db_query Job.select_shell [] with
       | inl message => JobsRoutes.next (Err (DatabaseError message))
       | inr jobs => JobsRoutes.res_json_jobs jobs
       end.
Proof.
  intros Hne Hok Hstr Ht Hs.
  assert (job_equity_fragment req_query = []) as Heq.
  { unfold job_equity_fragment, Get.
    destruct (GetOwnProperty req_query "hasEquity") as [v|] eqn:E; [|reflexivity].
    destruct (Hstr _ _ E) as [s ->]. reflexivity. }
  unfold JobsRoutes.get_root. rewrite Job_getByFilter_valid by assumption.
  unfold job_bindings. rewrite Ht, Hs, Heq. cbv zeta. cbn [use_if app imap fmap list_fmap fst snd].
  split; [reflexivity|].
  destruct (Object_keys req_query); [congruence|]. cbn [length Nat.eqb negb].
  unfold db_outcome. change (join " AND " []) with "". rewrite app_empty_r.
  destruct (db_query Job.select_shell []); reflexivity.
Qed.

End JobsRoute.

(** ** More on the filter builders *)

Section FilterBuilders.
Context {RT : Runtime}.

Lemma existsb_perm (f : string -> bool) (l l' : list string) :
  l ≡ₚ l' -> existsb f l = existsb f l'.
Proof.
  induction 1 as [|x l l' _ IH|x y l|l l' l'' _ IH1 _ IH2]; simpl.
  - reflexivity.
  - by rewrite IH.
  - by rewrite !orb_assoc, (orb_comm (f y)).
  - by rewrite IH1.
Qed.

(** Neither filter builder depends on the order of the payload's keys:
    two payloads with the same properties end the same way and leave the
    same query, values and fragments, also when validation fails. *)
Theorem getByFilter_key_order (filters filters' : object) :
  NoDup (Object_keys filters) -> filters ≡ₚ filters' ->
  Company.getByFilter filters' frame0 = Company.getByFilter filters frame0
  /\ Job.getByFilter filters' frame0 = Job.getByFilter filters frame0.
Proof.
  intros Hnd Hp.
  assert (Object_keys filters ≡ₚ Object_keys filters') as Hkeys
    by (unfold Object_keys; by rewrite Hp).
  rewrite !Company_getByFilter_run, !Job_getByFilter_run.
  unfold company_bindings, job_bindings, job_equity_fragment.
  rewrite <- !(existsb_perm _ _ _ Hkeys).
  by rewrite <- !(Get_perm filters filters').
Qed.

Lemma Company_getByFilter_bounds_error (filters : object) :
  Forall (fun key => key ∈ company_filters) (Object_keys filters) ->
  (Company.getByFilter filters frame0).1
  = Throw (BadRequestError "Max/min employees filters are not valid")
  <-> LessThan (Get filters "maxEmployees") (Get filters "minEmployees") = true.
Proof.
  intros Hok. rewrite Company_getByFilter_run.
  rewrite (proj2 (existsb_not_allowed _ _)); cycle 1.
  { intros key Hkey. by apply (proj1 (Forall_forall _ _) Hok). }
  destruct (LessThan _ _); [done|]. cbv zeta. cbn [fst]. unfold db_outcome.
  destruct (db_query _ _); split; congruence.
Qed.

(** On two numbers the companies bound check is the numeric comparison:
    the call ends in "Max/min employees filters are not valid" exactly
    when maxEmployees is below minEmployees as binary64 values. *)
Theorem Company_getByFilter_numeric_bounds (filters : object) (x y : spec_float) :
  Forall (fun key => key ∈ company_filters) (Object_keys filters) ->
  GetOwnProperty filters "maxEmployees" = Some (VNumber x) ->
  GetOwnProperty filters "minEmployees" = Some (VNumber y) ->
  (Company.getByFilter filters frame0).1
  = Throw (BadRequestError "Max/min employees filters are not valid")
  <-> SFltb x y = true.
Proof.
  intros Hok Hx Hy. rewrite Company_getByFilter_bounds_error by assumption.
  by rewrite (Get_own _ _ _ Hx), (Get_own _ _ _ Hy), LessThan_numbers.
Qed.

(** On two strings, as a query string delivers them, the bound check
    compares the strings and not the numbers they spell: the call ends in
    "Max/min employees filters are not valid" exactly when maxEmployees
    comes before minEmployees in the order of UTF-16 code units, so "5"
    against "10" passes and "10" against "5" fails, and U+10000, whose
    first unit is D800, comes before U+FFFF. *)
Theorem Company_getByFilter_lexical_bounds (filters : object) (a b : string) :
  Forall (fun key => key ∈ company_filters) (Object_keys filters) ->
  GetOwnProperty filters "maxEmployees" = Some (VString a) ->
  GetOwnProperty filters "minEmployees" = Some (VString b) ->
  ((Company.getByFilter filters frame0).1
   = Throw (BadRequestError "Max/min employees filters are not valid")
   <-> code_units_ltb (code_units a) (code_units b) = true)
  /\ code_units_ltb (code_units "5") (code_units "10") = false
  /\ code_units_ltb (code_units "10") (code_units "5") = true
  /\ code_units U_10000 = [55296%N; 56320%N]
  /\ code_units U_FFFF = [65535%N]
  /\ code_units_ltb (code_units U_10000) (code_units U_FFFF) = true.
Proof.
  intros Hok Ha Hb. split; [|done].
  rewrite Company_getByFilter_bounds_error by assumption.
  by rewrite (Get_own _ _ _ Ha), (Get_own _ _ _ Hb), LessThan_strings.
Qed.

(** [Company.getByFilter] prints the query and its values once, exactly
    when it gets past both checks; on a [BadRequestError] nothing is
    printed.  [Job.getByFilter] never prints. *)
Theorem getByFilter_console (filters : object) :
  (let '(out, fr) := Company.getByFilter filters frame0 in
   ((exists message, out = Throw (BadRequestError message)) /\ console fr = [])
   \/ ((forall message, out <> Throw (BadRequestError message))
       /\ console fr = [(queryString fr, values fr)]))
  /\ console (Job.getByFilter filters frame0).2 = [].
Proof.
  rewrite Company_getByFilter_run, Job_getByFilter_run. split.
  - destruct (existsb _ _); [left; eauto|].
    destruct (LessThan _ _); [left; eauto|].
    cbv zeta. right. split; [|reflexivity].
    intros message. unfold db_outcome. destruct (db_query _ _); congruence.
  - destruct (existsb _ _); [reflexivity|].
    by destruct (GreaterThanOrEqual _ _).
Qed.

End FilterBuilders.

(** ** helpers/sql.js: inherited names *)

Section InheritedNames.
Context {RT : Runtime}.

Lemma Object_prototype_truthy (key : string) (v : value) :
  GetOwnProperty Object_prototype key = Some v -> ToBoolean v = true.
Proof.
  unfold Object_prototype. cbn [GetOwnProperty].
  repeat (destruct (String.eqb _ key); [by intros [= <-]|]). discriminate.
Qed.

(** A payload key that is absent from the column map but names a
    property every object inherits ([constructor], [toString], ...) does
    not fall back to itself: [jsToSql[key]] finds the inherited value, and
    its string form becomes the column. *)
Theorem sqlForPartialUpdate_inherited_column (data jsToSql : object) (i : nat)
    (key : string) (v : value) :
  Object_keys data !! i = Some key ->
  GetOwnProperty jsToSql key = None ->
  GetOwnProperty Object_prototype key = Some v ->
  exists (r : Sql.result) (cols : list string),
    Sql.sqlForPartialUpdate data jsToSql = inr r
    /\ Sql.setCols r = join ", " cols
    /\ cols !! i = Some (dquote +:+ ToString v +:+ dquote +:+ "=$" +:+ nat_toString (i + 1)).
Proof.
  intros Hi Hown Hproto.
  eexists _, _. split.
  { apply sqlForPartialUpdate_keys. intros E. rewrite E in Hi. discriminate Hi. }
  split; [reflexivity|].
  rewrite list_lookup_imap, list_lookup_fmap, Hi. simpl.
  rewrite resolved_column_cases. unfold Get. rewrite Hown, Hproto.
  by rewrite (Object_prototype_truthy key v Hproto).
Qed.

End InheritedNames.

(** ** The text of a statement never holds a value *)

Section TextAndValues.
Context {RT : Runtime}.

(** The builders put values into the parameter list only: the SET
    clause is a function of the payload's keys and the column map, and a
    filter query is a function of which filters are in use, so two
    payloads that differ in their values alone give the same text. *)
Theorem statement_text_independent_of_values :
  (forall (data data' jsToSql : object) (r r' : Sql.result),
     Object_keys data = Object_keys data' ->
     Sql.sqlForPartialUpdate data jsToSql = inr r ->
     Sql.sqlForPartialUpdate data' jsToSql = inr r' ->
     Sql.setCols r = Sql.setCols r')
  /\ (forall filters filters' : object,
        Forall (fun key => key ∈ company_filters) (Object_keys filters) ->
        Forall (fun key => key ∈ company_filters) (Object_keys filters') ->
        LessThan (Get filters "maxEmployees") (Get filters "minEmployees") = false ->
        LessThan (Get filters' "maxEmployees") (Get filters' "minEmployees") = false ->
        (forall key, key ∈ company_filters ->
           ToBoolean (Get filters key) = ToBoolean (Get filters' key)) ->
        queryString (Company.getByFilter filters frame0).2
        = queryString (Company.getByFilter filters' frame0).2)
  /\ (forall filters filters' : object,
        Forall (fun key => key ∈ job_filters) (Object_keys filters) ->
        Forall (fun key => key ∈ job_filters) (Object_keys filters') ->
        ToBoolean (Get filters "title") = ToBoolean (Get filters' "title") ->
        ToBoolean (Get filters "minSalary") = ToBoolean (Get filters' "minSalary") ->
        StrictEquals (Get filters "hasEquity") (VBool true)
        = StrictEquals (Get filters' "hasEquity") (VBool true) ->
        queryString (Job.getByFilter filters frame0).2
        = queryString (Job.getByFilter filters' frame0).2).
Proof.
  split; [|split].
  - intros data data' jsToSql r r' Hkeys Hr Hr'.
    destruct (Object_keys data) as [|k ks] eqn:E.
    { rewrite sqlForPartialUpdate_no_keys in Hr by assumption. discriminate. }
    rewrite sqlForPartialUpdate_keys in Hr, Hr' by congruence.
    injection Hr as <-. injection Hr' as <-. cbn [Sql.setCols]. congruence.
  - intros filters filters' Hok Hok' Hlt Hlt' Hsame.
    rewrite !Company_getByFilter_run, Hlt, Hlt'.
    rewrite (proj2 (existsb_not_allowed company_filters (Object_keys filters)))
      by (intros key Hkey; apply (proj1 (Forall_forall _ _) Hok key Hkey)).
    rewrite (proj2 (existsb_not_allowed company_filters (Object_keys filters')))
      by (intros key Hkey; apply (proj1 (Forall_forall _ _) Hok' key Hkey)).
    cbv zeta. cbn [snd queryString]. unfold company_bindings.
    rewrite <- (Hsame "name"), <- (Hsame "maxEmployees"), <- (Hsame "minEmployees")
      by (unfold company_filters; rewrite !elem_of_cons; auto).
    by destruct (ToBoolean (Get filters "name")),
      (ToBoolean (Get filters "maxEmployees")), (ToBoolean (Get filters "minEmployees")).
  - intros filters filters' Hok Hok' Ht Hs He.
    rewrite !Job_getByFilter_valid by assumption.
    cbv zeta. cbn [snd queryString]. unfold job_bindings, job_equity_fragment.
    rewrite <- Ht, <- Hs.
    assert (forall v : value,
              match v with
              | VBool true => ["equity IS NOT NULL AND equity > 0"]
              | _ => []
              end
              = if StrictEquals v (VBool true)
                then ["equity IS NOT NULL AND equity > 0"] else []) as Heq
      by (by intros [| |[|]| | |]).
    rewrite !Heq, <- He.
    by destruct (ToBoolean (Get filters "title")), (ToBoolean (Get filters "minSalary")),
      (StrictEquals (Get filters "hasEquity") (VBool true)).
Qed.

End TextAndValues.

Lemma statement_text_independent_of_values_witness :
  queryString (@Company.getByFilter example_runtime
                 [("name", VString "net"); ("minEmployees", num 5)] frame0).2
  = queryString (@Company.getByFilter example_runtime
                   [("minEmployees", num 900); ("name", VString "x' OR 1=1 --")] frame0).2.
Proof.
  apply (proj1 (proj2 (@statement_text_independent_of_values example_runtime))).
  - repeat constructor.
  - repeat constructor.
  - reflexivity.
  - reflexivity.
  - intros key Hkey. unfold company_filters in Hkey.
    repeat (apply elem_of_cons in Hkey as [->|Hkey]; [reflexivity|]).
    by apply elem_of_nil in Hkey.
Defined.

(** *** Instances of the further properties *)

Lemma update_empty_payload_witness :
  @CompanyOps.update example_runtime (VString "c1") [] []
  = (Raise (Err (BadRequestError "No data")), [])
  /\ @JobOps.update example_runtime (VString "c1") [] []
     = (Raise (Err (BadRequestError "No data")), []).
Proof. apply (@update_empty_payload example_runtime). reflexivity. Defined.

Lemma CompanyOps_update_statement_witness :
  exists text,
    sent_by (@CompanyOps.update example_runtime (VString "c1")
               [("name", VString "New"); ("numEmployees", num 10)])
    = [(text, [VString "New"; num 10; VString "c1"])]
    /\ placeholders text = [1; 2; 3]
    /\ (@CompanyOps.update example_runtime (VString "c1")
          [("name", VString "New"); ("numEmployees", num 10)] []).1
       = Raise (NotFoundError "No company: c1").
Proof.
  destruct (@CompanyOps_update_statement example_runtime (VString "c1")
              [("name", VString "New"); ("numEmployees", num 10)])
    as (r & text & _ & _ & Hsent & Hph & _ & _ & Hout & _); [discriminate|].
  exists text. split; [exact Hsent|]. split; [|exact Hout].
  apply Hph. intros key Hkey.
  repeat (apply elem_of_cons in Hkey as [->|Hkey]; [reflexivity|]).
  by apply elem_of_nil in Hkey.
Defined.

Lemma JobOps_update_statement_witness :
  exists text,
    sent_by (@JobOps.update example_runtime (VString "7")
               [("title", VString "New"); ("salary", num 500)])
    = [(text, [VString "New"; num 500; VString "7"])]
    /\ placeholders text = [1; 2; 3]
    /\ (@JobOps.update example_runtime (VString "7")
          [("title", VString "New"); ("salary", num 500)] []).1
       = Raise (NotFoundError "No job with id 7").
Proof.
  destruct (@JobOps_update_statement example_runtime (VString "7")
              [("title", VString "New"); ("salary", num 500)])
    as (r & text & _ & _ & Hsent & Hph & _ & _ & Hout & _); [discriminate|].
  exists text. split; [exact Hsent|]. split; [|exact Hout].
  apply Hph. intros key Hkey.
  repeat (apply elem_of_cons in Hkey as [->|Hkey]; [reflexivity|]).
  by apply elem_of_nil in Hkey.
Defined.

Lemma statements_well_bound_witness :
  Forall well_bound
    (@statements_of example_runtime
       (CompanyUpdate (VString "c1") [("name", VString "New"); ("logoUrl", VString "/x.png")])).
Proof.
  apply (@statements_well_bound example_runtime).
  intros key Hkey.
  repeat (apply elem_of_cons in Hkey as [->|Hkey]; [reflexivity|]).
  by apply elem_of_nil in Hkey.
Defined.

Lemma get_root_hasEquity_string_witness :
  (@Job.getByFilter example_runtime [("hasEquity", VString "true")] frame0).2
  = {| queryString := Job.select_shell; values := []; whereFilters := []; console := [] |}
  /\ @JobsRoutes.get_root example_runtime [("hasEquity", VString "true")]
     = JobsRoutes.res_json_jobs [].
Proof.
  apply (@get_root_hasEquity_string example_runtime [("hasEquity", VString "true")]).
  - discriminate.
  - repeat constructor.
  - intros key v. cbn [GetOwnProperty].
    destruct (String.eqb "hasEquity" key); [intros [= <-]; by eexists | discriminate].
  - reflexivity.
  - reflexivity.
Defined.

Lemma getByFilter_key_order_witness :
  @Company.getByFilter example_runtime
    [("minEmployees", num 5); ("name", VString "net")] frame0
  = @Company.getByFilter example_runtime
      [("name", VString "net"); ("minEmployees", num 5)] frame0.
Proof.
  apply (@getByFilter_key_order example_runtime
           [("name", VString "net"); ("minEmployees", num 5)]
           [("minEmployees", num 5); ("name", VString "net")]).
  - apply (bool_decide_unpack _). vm_compute. exact I.
  - exact (Permutation_rev _).
Defined.

Lemma Company_getByFilter_numeric_bounds_witness :
  (@Company.getByFilter example_runtime
     [("maxEmployees", num 5); ("minEmployees", num 10)] frame0).1
  = Throw (BadRequestError "Max/min employees filters are not valid").
Proof.
  apply (@Company_getByFilter_numeric_bounds example_runtime
           [("maxEmployees", num 5); ("minEmployees", num 10)]
           (Number_of_Z 5) (Number_of_Z 10)).
  - repeat constructor.
  - reflexivity.
  - reflexivity.
  - reflexivity.
Defined.

Lemma Company_getByFilter_lexical_bounds_witness :
  (@Company.getByFilter example_runtime
     [("maxEmployees", VString "10"); ("minEmployees", VString "5")] frame0).1
  = Throw (BadRequestError "Max/min employees filters are not valid").
Proof.
  apply (proj1 (@Company_getByFilter_lexical_bounds example_runtime
                  [("maxEmployees", VString "10"); ("minEmployees", VString "5")]
                  "10" "5" ltac:(repeat constructor) eq_refl eq_refl)).
  reflexivity.
Defined.

Lemma sqlForPartialUpdate_inherited_column_witness :
  exists (r : Sql.result) (cols : list string),
    @Sql.sqlForPartialUpdate example_runtime [("constructor", num 1)] [] = inr r
    /\ Sql.setCols r = join ", " cols
    /\ cols !! 0
       = Some (dquote +:+ "function Object() { [native code] }" +:+ dquote +:+ "=$1").
Proof.
  apply (@sqlForPartialUpdate_inherited_column example_runtime
           [("constructor", num 1)] [] 0 "constructor"
           (native "Object")); reflexivity.
Defined.
